(** * dewallet identity chaincode (dewallet_cc.go): model and properties

    The chaincode keeps one JSON-encoded [Identity] per username in the
    ledger's key-value state and exposes five handlers behind [Invoke].
    The model follows the Go source function by function.  What the source
    imports (encoding/json, encoding/hex, encoding/base64, crypto/x509,
    crypto/sha256, crypto/rsa and the Fabric shim) is kept behind
    interfaces: the handlers are defined, and the general theorems proved,
    for every implementation of them.  A small executable implementation
    at the end of the file runs the handlers on concrete requests. *)

From Stdlib Require Import ZArith Lia.
From Stdlib.Strings Require Import Byte Ascii String.
From stdpp Require Import gmap strings list.

Local Open Scope Z_scope.

(** ** Go base types *)

(** [[]byte] *)
Abbreviation bytes := (list byte).

(** [[]byte(s)] *)
Definition bytes_of_string (s : string) : bytes := String.list_byte_of_string s.

(** A Go [error] value, identified with the text of its [Error()] method;
    [nil] is [None] of [option error]. *)
Definition error := string.

(** Outcome of running Go code that may index a slice out of range. *)
Inductive exec (A : Type) : Type :=
| Done (a : A)
| Panic.
Arguments Done {A} a.
Arguments Panic {A}.

(** [args[n]]: a run-time panic when [n] is out of range. *)
Definition index (args : list string) (n : nat) : exec string :=
  match args !! n with
  | Some a => Done a
  | None => Panic
  end.

(** ** Data model *)

Module Key.
Record t := mk { Owner : string; Key : string }.
End Key.

Module Identity.
Record t := mk {
    Username : string;
    PublicKey : string;
    EPublicKey : string;
    SPublicKey : string;
    Data : string;
    Verified : string;
    Keys : list Key.t
  }.

  (** [var i Identity] *)
Definition zero : t := mk "" "" "" "" "" "" [].

  (** [i.Keys = ks] *)
Definition set_Keys (i : t) (ks : list Key.t) : t :=
    mk (Username i) (PublicKey i) (EPublicKey i) (SPublicKey i) (Data i)
       (Verified i) ks.

  (** [i.Data = d] *)
Definition set_Data (i : t) (d : string) : t :=
    mk (Username i) (PublicKey i) (EPublicKey i) (SPublicKey i) d
       (Verified i) (Keys i).
End Identity.

Module updateUserDataRequest.
Record t := mk { Username : string; Data : string }.
Definition zero : t := mk "" "".
End updateUserDataRequest.

Module addKeyRequest.
Record t := mk { Username : string; Owner : string; Key : string }.
Definition zero : t := mk "" "" "".
End addKeyRequest.

Module addKeyResponse.
Record t := mk { Owner : string; Key : string }.
End addKeyResponse.

Module getPublicKeyRequest.
Record t := mk { Username : string }.
Definition zero : t := mk "".
End getPublicKeyRequest.

Module getPublicKeyResponse.
Record t := mk { PublicKey : string; EPublicKey : string }.
End getPublicKeyResponse.

Module getUserDataRequest.
Record t := mk { Username : string; Owner : string }.
Definition zero : t := mk "" "".
End getUserDataRequest.

Module getUserDataResponse.
Record t := mk {
    PublicKey : string;
    EPublicKey : string;
    SPublicKey : string;
    Data : string;
    Key : string
  }.
End getUserDataResponse.

(** ** Imported packages, as interfaces *)

(** encoding/json at one Go type.  [json_Marshal] never fails on structs
    of strings and slices (the source drops its error: [iBytes, _ :=]).
    [json_Unmarshal data v] decodes [data] into the variable holding [v]
    and returns the variable's new content with the error. *)
Class Json (T : Type) := {
  json_Marshal : T → bytes;
  json_Unmarshal : bytes → T → T * option error
}.

Module rsa.
Record PublicKey := mk { N : Z; E : Z }.
End rsa.

(** The dynamic type of the [interface{}] returned by
    [x509.ParsePKIXPublicKey]. *)
Inductive pkix_key :=
| RSAPublicKey (pk : rsa.PublicKey)
| DSAPublicKey
| ECDSAPublicKey
| Ed25519PublicKey.

Inductive crypto_Hash := crypto_SHA256.

Class Crypto := {
  (** [hex.DecodeString] *)
  hex_DecodeString : string → bytes * option error;
  (** [base64.StdEncoding.DecodeString]: the bytes decoded before an
      error are returned together with it. *)
  base64_DecodeString : string → bytes * option error;
  (** [x509.ParsePKIXPublicKey]; a nil interface is [None]. *)
  x509_ParsePKIXPublicKey : bytes → option pkix_key * option error;
  (** [sha256.Sum256], as the slice [h[:]] *)
  sha256_Sum256 : bytes → bytes;
  (** [rsa.VerifyPKCS1v15 pub hash hashed sig] *)
  rsa_VerifyPKCS1v15 :
    rsa.PublicKey → crypto_Hash → bytes → bytes → option error
}.

(** ** The Fabric shim *)

Module pb.
Record Response := mk { Status : Z; Message : string; Payload : bytes }.
End pb.

Definition shim_OK : Z := 200.
Definition shim_ERROR : Z := 500.

Definition shim_Success (payload : bytes) : pb.Response :=
  pb.mk shim_OK "" payload.

Definition shim_Error (msg : string) : pb.Response :=
  pb.mk shim_ERROR msg [].

(** [shim.ChaincodeStubInterface], restricted to what the chaincode calls.
    [world] is the ledger state of the chaincode; [get_error] and
    [put_error] say on which calls the backing store fails. *)
Record ChaincodeStub := mkStub {
  world : gmap string bytes;
  get_error : string → option error;
  put_error : string → bytes → option error
}.

(** [stub.GetState(key)]: nil bytes for an absent key. *)
Definition GetState (stub : ChaincodeStub) (key : string)
  : option bytes * option error :=
  match get_error stub key with
  | Some err => (None, Some err)
  | None => (world stub !! key, None)
  end.

(** [stub.PutState(key, value)]: a failed write leaves the state as it is. *)
Definition PutState (stub : ChaincodeStub) (key : string) (value : bytes)
  : ChaincodeStub * option error :=
  match put_error stub key value with
  | Some err => (stub, Some err)
  | None =>
      (mkStub (<[key := value]> (world stub)) (get_error stub) (put_error stub),
       None)
  end.

(** ** The chaincode *)

(** A handler receives the stub and the invocation's parameters; it
    returns its response, or panics, together with the stub afterwards. *)
Definition handler : Type :=
  ChaincodeStub → list string → exec pb.Response * ChaincodeStub.

(** *** Notions the properties are stated with *)

(** The key of the most recently appended entry of [keys] granted to
    [owner], and the empty string when there is none (spec 4.7). *)
Definition last_matching_key (owner : string) (keys : list Key.t) : string :=
  match last (filter (fun k => Key.Owner k = owner) keys) with
  | Some k => Key.Key k
  | None => ""
  end.

(** Identities all of whose strings satisfy [utf8].  For encoding/json
    [utf8] is validity as UTF-8: the strings json.Unmarshal produces are
    valid, and valid strings survive json.Marshal followed by
    json.Unmarshal. *)
Definition wf_Key (utf8 : string → Prop) (k : Key.t) : Prop :=
  utf8 (Key.Owner k) ∧ utf8 (Key.Key k).

Definition wf_Identity (utf8 : string → Prop) (i : Identity.t) : Prop :=
  utf8 (Identity.Username i) ∧ utf8 (Identity.PublicKey i) ∧
  utf8 (Identity.EPublicKey i) ∧ utf8 (Identity.SPublicKey i) ∧
  utf8 (Identity.Data i) ∧ utf8 (Identity.Verified i) ∧
  Forall (wf_Key utf8) (Identity.Keys i).

(** The five handler names of the dispatcher (spec 4.8). *)
Definition handler_names : list string :=
  ["Register"; "UpdateUserData"; "AddKey"; "GetPublicKey"; "GetUserData"].

(** A handler aborts atomically when an error response comes with the
    stub it was given. *)
Definition aborts_atomically (h : handler) : Prop :=
  ∀ stub args resp stub',
    h stub args = (Done resp, stub') →
    pb.Status resp = shim_ERROR →
    stub' = stub.

(** A handler's answer is a success. *)
Definition succeeded (r : exec pb.Response) : Prop :=
  ∃ resp, r = Done resp ∧ pb.Status resp = shim_OK.

Section Chaincode.
Context `{!Crypto}.
Context `{!Json Identity.t}.
Context `{!Json updateUserDataRequest.t} `{!Json addKeyRequest.t}
        `{!Json getPublicKeyRequest.t} `{!Json getUserDataRequest.t}.
Context `{!Json addKeyResponse.t} `{!Json getPublicKeyResponse.t}
        `{!Json getUserDataResponse.t}.

(** [var i Identity; json.Unmarshal(data, &i)], error dropped: the way
    every handler reads a record or a request. *)
Definition decode_Identity (data : bytes) : Identity.t :=
  (json_Unmarshal data Identity.zero).1.

(** [func (t *DewalletChaincode) VerifySignature(args []string,
    publicKey string) error] *)
Definition VerifySignature (args : list string) (publicKey : string)
  : exec (option error) :=
  match index args 0 with
  | Panic => Panic
  | Done a0 =>
    let m := bytes_of_string a0 in
    match index args 1 with
    | Panic => Panic
    | Done a1 =>
      match hex_DecodeString a1 with
      | (_, Some err) => Done (Some ("Error in decoding signature " +:+ err))
      | (s, None) =>
        (* pkBytes, err := base64...; pk, err := x509...: the second
           assignment overwrites the first [err] before it is read *)
        let '(pkBytes, _) := base64_DecodeString publicKey in
        match x509_ParsePKIXPublicKey pkBytes with
        | (_, Some err) =>
            Done (Some ("Error in parsing key " +:+ publicKey +:+ " " +:+ err))
        | (Some (RSAPublicKey pk), None) =>
            let h := sha256_Sum256 m in
            match rsa_VerifyPKCS1v15 pk crypto_SHA256 h s with
            | Some err => Done (Some ("Error in verifying signature " +:+ err))
            | None => Done None
            end
        | (_, None) => Done (Some "Key is not RSA")
        end
      end
    end
  end.

(** [Register] *)
Definition Register : handler := fun stub args =>
  match index args 0 with
  | Panic => (Panic, stub)
  | Done a0 =>
    let i := (json_Unmarshal (bytes_of_string a0) Identity.zero).1 in
    let i := Identity.set_Keys i [] in
    let iBytes := json_Marshal i in
    match PutState stub (Identity.Username i) iBytes with
    | (stub, Some err) => (Done (shim_Error err), stub)
    | (stub, None) => (Done (shim_Success iBytes), stub)
    end
  end.

(** [UpdateUserData] *)
Definition UpdateUserData : handler := fun stub args =>
  match index args 0 with
  | Panic => (Panic, stub)
  | Done a0 =>
    let r := (json_Unmarshal (bytes_of_string a0) updateUserDataRequest.zero).1 in
    match GetState stub (updateUserDataRequest.Username r) with
    | (_, Some _) => (Done (shim_Error "Failed to get state"), stub)
    | (None, None) => (Done (shim_Error "Username not found"), stub)
    | (Some iBytes, None) =>
      let i := (json_Unmarshal iBytes Identity.zero).1 in
      match VerifySignature args (Identity.SPublicKey i) with
      | Panic => (Panic, stub)
      | Done (Some err) =>
          (Done (shim_Error ("Can't verify signature " +:+ err)), stub)
      | Done None =>
        let i := Identity.set_Data i (updateUserDataRequest.Data r) in
        let iBytes := json_Marshal i in
        match PutState stub (Identity.Username i) iBytes with
        | (stub, Some err) => (Done (shim_Error err), stub)
        | (stub, None) => (Done (shim_Success iBytes), stub)
        end
      end
    end
  end.

(** [AddKey] *)
Definition AddKey : handler := fun stub args =>
  match index args 0 with
  | Panic => (Panic, stub)
  | Done a0 =>
    let r := (json_Unmarshal (bytes_of_string a0) addKeyRequest.zero).1 in
    match GetState stub (addKeyRequest.Username r) with
    | (_, Some _) => (Done (shim_Error "Failed to get state"), stub)
    | (None, None) => (Done (shim_Error "Username not found"), stub)
    | (Some iBytes, None) =>
      let key := Key.mk (addKeyRequest.Owner r) (addKeyRequest.Key r) in
      let i := (json_Unmarshal iBytes Identity.zero).1 in
      match VerifySignature args (Identity.SPublicKey i) with
      | Panic => (Panic, stub)
      | Done (Some err) =>
          (Done (shim_Error ("Can't verify signature " +:+ err)), stub)
      | Done None =>
        let i := Identity.set_Keys i (Identity.Keys i ++ [key]) in
        let iBytes := json_Marshal i in
        match PutState stub (Identity.Username i) iBytes with
        | (stub, Some err) => (Done (shim_Error err), stub)
        | (stub, None) =>
          let res := addKeyResponse.mk (addKeyRequest.Owner r)
                                       (addKeyRequest.Key r) in
          (Done (shim_Success (json_Marshal res)), stub)
        end
      end
    end
  end.

(** [GetPublicKey] *)
Definition GetPublicKey : handler := fun stub args =>
  match index args 0 with
  | Panic => (Panic, stub)
  | Done a0 =>
    let req := (json_Unmarshal (bytes_of_string a0) getPublicKeyRequest.zero).1 in
    match GetState stub (getPublicKeyRequest.Username req) with
    | (_, Some _) => (Done (shim_Error "Failed to get state"), stub)
    | (None, None) => (Done (shim_Error "Username not found"), stub)
    | (Some iBytes, None) =>
      let i := (json_Unmarshal iBytes Identity.zero).1 in
      let res := getPublicKeyResponse.mk (Identity.PublicKey i)
                                         (Identity.EPublicKey i) in
      (Done (shim_Success (json_Marshal res)), stub)
    end
  end.

(** The loop of [GetUserData]:
    [for _, key := range keys { if key.Owner == owner { keyResult = key.Key } }],
    from the value of [keyResult] before it. *)
Definition scan_keys (owner : string) (keys : list Key.t) (keyResult : string)
  : string :=
  fold_left
    (fun keyResult key =>
       if String.eqb (Key.Owner key) owner then Key.Key key else keyResult)
    keys keyResult.

(** [GetUserData] *)
Definition GetUserData : handler := fun stub args =>
  match index args 0 with
  | Panic => (Panic, stub)
  | Done a0 =>
    let req := (json_Unmarshal (bytes_of_string a0) getUserDataRequest.zero).1 in
    match GetState stub (getUserDataRequest.Username req) with
    | (_, Some _) => (Done (shim_Error "Failed to get state"), stub)
    | (None, None) => (Done (shim_Error "Username not found"), stub)
    | (Some iBytes, None) =>
      let i := (json_Unmarshal iBytes Identity.zero).1 in
      let keyResult :=
        scan_keys (getUserDataRequest.Owner req) (Identity.Keys i) "" in
      let res := getUserDataResponse.mk
                   (Identity.PublicKey i) (Identity.EPublicKey i)
                   (Identity.SPublicKey i) (Identity.Data i) keyResult in
      (Done (shim_Success (json_Marshal res)), stub)
    end
  end.

(** [Init]: [shim.Success(nil)] *)
Definition Init (stub : ChaincodeStub) : exec pb.Response * ChaincodeStub :=
  (Done (shim_Success []), stub).

(** The text both [logger.Errorf] and [shim.Error] format in [Invoke]. *)
Definition unknown_action : string :=
  "Unknown action, check the first argument, must be one of 'Register', 'GetPublicKey'. But got: ".

(** [Invoke], after [function, args := stub.GetFunctionAndParameters()]. *)
Definition Invoke (stub : ChaincodeStub) (function : string)
           (args : list string) : exec pb.Response * ChaincodeStub :=
  if String.eqb function "Register" then Register stub args
  else if String.eqb function "UpdateUserData" then UpdateUserData stub args
  else if String.eqb function "AddKey" then AddKey stub args
  else if String.eqb function "GetPublicKey" then GetPublicKey stub args
  else if String.eqb function "GetUserData" then GetUserData stub args
  else
    match index args 0 with
    | Panic => (Panic, stub)
    | Done a0 => (Done (shim_Error (unknown_action +:+ a0)), stub)
    end.

(** *** What the properties speak about *)

(** The five handlers, as [Invoke] names them. *)
Definition handlers : list handler :=
  [Register; UpdateUserData; AddKey; GetPublicKey; GetUserData].

(** The record a handler finds under [username]: the stored bytes,
    decoded as the handlers decode them. *)
Definition stored_identity (stub : ChaincodeStub) (username : string)
  : option Identity.t :=
  decode_Identity <$> world stub !! username.

(** The [keys] sequence stored under [username]; empty when nothing is. *)
Definition stored_keys (stub : ChaincodeStub) (username : string) : list Key.t :=
  from_option Identity.Keys [] (stored_identity stub username).

(** The request structs, decoded from [args[0]] as the handlers do. *)
Definition decode_updateUserDataRequest (payload : string) :=
  (json_Unmarshal (bytes_of_string payload) updateUserDataRequest.zero).1.

Definition decode_addKeyRequest (payload : string) :=
  (json_Unmarshal (bytes_of_string payload) addKeyRequest.zero).1.

Definition decode_getPublicKeyRequest (payload : string) :=
  (json_Unmarshal (bytes_of_string payload) getPublicKeyRequest.zero).1.

Definition decode_getUserDataRequest (payload : string) :=
  (json_Unmarshal (bytes_of_string payload) getUserDataRequest.zero).1.

(** The handlers that read a record, each with the username its request
    names in [payload]. *)
Definition lookups (payload : string) : list (handler * string) :=
  [(UpdateUserData,
    updateUserDataRequest.Username (decode_updateUserDataRequest payload));
   (AddKey, addKeyRequest.Username (decode_addKeyRequest payload));
   (GetPublicKey,
    getPublicKeyRequest.Username (decode_getPublicKeyRequest payload));
   (GetUserData,
    getUserDataRequest.Username (decode_getUserDataRequest payload))].

(** The stub after [stub.PutState(i.Username, iBytes)] succeeded, for
    [iBytes, _ := json.Marshal(i)]. *)
Definition write (stub : ChaincodeStub) (i : Identity.t) : ChaincodeStub :=
  mkStub (<[Identity.Username i := json_Marshal i]> (world stub))
         (get_error stub) (put_error stub).

(** Every key of the state holds the serialization of a well-formed
    identity of that username. *)
Definition consistent (utf8 : string → Prop) (stub : ChaincodeStub) : Prop :=
  ∀ username iBytes,
    world stub !! username = Some iBytes →
    ∃ i, wf_Identity utf8 i ∧ iBytes = json_Marshal i ∧
         Identity.Username i = username.

(** Ledger states the chaincode can produce: from an empty state, by
    invocations; between invocations the store may change the calls it
    fails on. *)
Inductive reachable : ChaincodeStub → Prop :=
| reachable_init stub :
    world stub = ∅ → reachable stub
| reachable_Invoke stub function args r stub' :
    reachable stub →
    Invoke stub function args = (r, stub') →
    reachable stub'
| reachable_store stub stub' :
    reachable stub →
    world stub' = world stub →
    reachable stub'.

End Chaincode.

(** ** An executable implementation of the interfaces

    Small stand-ins with the shape of the imported packages: a positional
    text codec in place of encoding/json, a hex and a base64 decoder, a
    three-byte public-key format and textbook RSA over one-byte numbers in
    place of crypto/x509, crypto/sha256 and crypto/rsa.  They let the
    handlers run on concrete requests; no general theorem depends on
    them. *)
Module Fixture.

(** *** Codec: every string is written with [\] before [;] and [\], and
    closed by [;]; a list of keys is one [+] per entry, then [.], then
    the entries. *)

Definition special (c : ascii) : bool :=
  (Ascii.eqb c ";" || Ascii.eqb c "\")%bool.

Fixpoint put_string (s : string) : string :=
  match s with
  | EmptyString => ";"
  | String c s' =>
      if special c then String "\" (String c (put_string s'))
      else String c (put_string s')
  end.

Definition cons_fst (c : ascii) (r : string * string) : string * string :=
  (String c r.1, r.2).

Fixpoint get_string (inp : string) : option (string * string) :=
  match inp with
  | EmptyString => None
  | String c inp' =>
      if Ascii.eqb c ";" then Some (EmptyString, inp')
      else if Ascii.eqb c "\" then
        match inp' with
        | EmptyString => None
        | String d inp'' => cons_fst d <$> get_string inp''
        end
      else cons_fst c <$> get_string inp'
  end.

Definition put_key (k : Key.t) : string :=
  put_string (Key.Owner k) +:+ put_string (Key.Key k).

Definition get_key (inp : string) : option (Key.t * string) :=
  '(o, inp) ← get_string inp;
  '(k, inp) ← get_string inp;
  Some (Key.mk o k, inp).

Fixpoint put_marks (n : nat) : string :=
  match n with
  | O => "."
  | S n => String "+" (put_marks n)
  end.

Fixpoint get_marks (inp : string) : option (nat * string) :=
  match inp with
  | String c inp' =>
      if Ascii.eqb c "." then Some (O, inp')
      else if Ascii.eqb c "+" then
        '(n, rest) ← get_marks inp'; Some (S n, rest)
      else None
  | EmptyString => None
  end.

Fixpoint put_keys (ks : list Key.t) : string :=
  match ks with
  | [] => ""
  | k :: ks => put_key k +:+ put_keys ks
  end.

Fixpoint get_keys (n : nat) (inp : string) : option (list Key.t * string) :=
  match n with
  | O => Some ([], inp)
  | S n =>
      '(k, inp) ← get_key inp;
      '(ks, inp) ← get_keys n inp;
      Some (k :: ks, inp)
  end.

Definition put_Identity (i : Identity.t) : string :=
  put_string (Identity.Username i) +:+ put_string (Identity.PublicKey i) +:+
  put_string (Identity.EPublicKey i) +:+ put_string (Identity.SPublicKey i) +:+
  put_string (Identity.Data i) +:+ put_string (Identity.Verified i) +:+
  put_marks (length (Identity.Keys i)) +:+ put_keys (Identity.Keys i).

Definition get_Identity (inp : string) : option (Identity.t * string) :=
  '(u, inp) ← get_string inp;
  '(pk, inp) ← get_string inp;
  '(epk, inp) ← get_string inp;
  '(spk, inp) ← get_string inp;
  '(d, inp) ← get_string inp;
  '(v, inp) ← get_string inp;
  '(n, inp) ← get_marks inp;
  '(ks, inp) ← get_keys n inp;
  Some (Identity.mk u pk epk spk d v ks, inp).

(** A codec from a printer and a parser: a payload that does not parse
    leaves the variable as it was and reports an error. *)
Definition codec {T : Type} (put : T → string)
           (get : string → option (T * string)) : Json T :=
  {| json_Marshal := fun v => bytes_of_string (put v);
     json_Unmarshal := fun data v =>
       match get (String.string_of_list_byte data) with
       | Some (x, _) => (x, None)
       | None => (v, Some "unexpected end of input")
       end |}.

#[export] Instance Json_Identity : Json Identity.t :=
  codec put_Identity get_Identity.

#[export] Instance Json_updateUserDataRequest : Json updateUserDataRequest.t :=
  codec
    (fun r => put_string (updateUserDataRequest.Username r) +:+
              put_string (updateUserDataRequest.Data r))
    (fun inp => '(u, inp) ← get_string inp; '(d, inp) ← get_string inp;
                Some (updateUserDataRequest.mk u d, inp)).

#[export] Instance Json_addKeyRequest : Json addKeyRequest.t :=
  codec
    (fun r => put_string (addKeyRequest.Username r) +:+
              put_string (addKeyRequest.Owner r) +:+
              put_string (addKeyRequest.Key r))
    (fun inp => '(u, inp) ← get_string inp; '(o, inp) ← get_string inp;
                '(k, inp) ← get_string inp;
                Some (addKeyRequest.mk u o k, inp)).

#[export] Instance Json_getPublicKeyRequest : Json getPublicKeyRequest.t :=
  codec
    (fun r => put_string (getPublicKeyRequest.Username r))
    (fun inp => '(u, inp) ← get_string inp;
                Some (getPublicKeyRequest.mk u, inp)).

#[export] Instance Json_getUserDataRequest : Json getUserDataRequest.t :=
  codec
    (fun r => put_string (getUserDataRequest.Username r) +:+
              put_string (getUserDataRequest.Owner r))
    (fun inp => '(u, inp) ← get_string inp; '(o, inp) ← get_string inp;
                Some (getUserDataRequest.mk u o, inp)).

#[export] Instance Json_addKeyResponse : Json addKeyResponse.t :=
  codec
    (fun r => put_string (addKeyResponse.Owner r) +:+
              put_string (addKeyResponse.Key r))
    (fun inp => '(o, inp) ← get_string inp; '(k, inp) ← get_string inp;
                Some (addKeyResponse.mk o k, inp)).

#[export] Instance Json_getPublicKeyResponse : Json getPublicKeyResponse.t :=
  codec
    (fun r => put_string (getPublicKeyResponse.PublicKey r) +:+
              put_string (getPublicKeyResponse.EPublicKey r))
    (fun inp => '(p, inp) ← get_string inp; '(e, inp) ← get_string inp;
                Some (getPublicKeyResponse.mk p e, inp)).

#[export] Instance Json_getUserDataResponse : Json getUserDataResponse.t :=
  codec
    (fun r => put_string (getUserDataResponse.PublicKey r) +:+
              put_string (getUserDataResponse.EPublicKey r) +:+
              put_string (getUserDataResponse.SPublicKey r) +:+
              put_string (getUserDataResponse.Data r) +:+
              put_string (getUserDataResponse.Key r))
    (fun inp => '(p, inp) ← get_string inp; '(e, inp) ← get_string inp;
                '(s, inp) ← get_string inp; '(d, inp) ← get_string inp;
                '(k, inp) ← get_string inp;
                Some (getUserDataResponse.mk p e s d k, inp)).

(** *** Decoders and keys *)

Definition byte_of_Z (n : Z) : byte :=
  default x00 (Byte.of_N (Z.to_N n)).

Definition Z_of_byte (b : byte) : Z := Z.of_N (Byte.to_N b).

Definition Z_of_ascii (c : ascii) : Z := Z.of_N (N_of_ascii c).

(** [fromHexChar] of encoding/hex. *)
Definition fromHexChar (c : ascii) : option Z :=
  let n := Z_of_ascii c in
  if (48 <=? n) && (n <=? 57) then Some (n - 48)
  else if (97 <=? n) && (n <=? 102) then Some (n - 97 + 10)
  else if (65 <=? n) && (n <=? 70) then Some (n - 65 + 10)
  else None.

Fixpoint hex_decode (s : string) : bytes * option error :=
  match s with
  | EmptyString => ([], None)
  | String a EmptyString =>
      match fromHexChar a with
      | Some _ => ([], Some "encoding/hex: odd length hex string")
      | None => ([], Some "encoding/hex: invalid byte")
      end
  | String a (String b rest) =>
      match fromHexChar a, fromHexChar b with
      | Some x, Some y =>
          let '(bs, err) := hex_decode rest in (byte_of_Z (16 * x + y) :: bs, err)
      | _, _ => ([], Some "encoding/hex: invalid byte")
      end
  end.

(** The value of a character of the standard base64 alphabet. *)
Definition base64_value (c : ascii) : option Z :=
  let n := Z_of_ascii c in
  if (65 <=? n) && (n <=? 90) then Some (n - 65)
  else if (97 <=? n) && (n <=? 122) then Some (n - 97 + 26)
  else if (48 <=? n) && (n <=? 57) then Some (n - 48 + 52)
  else if n =? 43 then Some 62
  else if n =? 47 then Some 63
  else None.

Definition corrupt : error := "illegal base64 data".

(** Four characters at a time; the bytes of the groups decoded before a
    bad one are kept and returned with the error.  (Line breaks, which
    the Go decoder skips, are not handled.) *)
Fixpoint base64_decode (s : string) : bytes * option error :=
  match s with
  | EmptyString => ([], None)
  | String a (String b (String c (String d rest))) =>
      match base64_value a, base64_value b with
      | Some x, Some y =>
          let b0 := byte_of_Z (x * 4 + y / 16) in
          match base64_value c, base64_value d with
          | Some z, Some w =>
              let '(bs, err) := base64_decode rest in
              (b0 :: byte_of_Z ((y mod 16) * 16 + z / 4)
                  :: byte_of_Z ((z mod 4) * 64 + w) :: bs, err)
          | Some z, None =>
              if Ascii.eqb d "=" then
                ([b0; byte_of_Z ((y mod 16) * 16 + z / 4)],
                 match rest with EmptyString => None | _ => Some corrupt end)
              else ([], Some corrupt)
          | None, _ =>
              if Ascii.eqb c "=" && Ascii.eqb d "=" then
                ([b0], match rest with EmptyString => None | _ => Some corrupt end)
              else ([], Some corrupt)
          end
      | _, _ => ([], Some corrupt)
      end
  | _ => ([], Some corrupt)
  end.

(** Public keys are three bytes: a tag, then for the tag [R] an RSA
    modulus and exponent of one byte each; the tag [E] stands for an
    elliptic-curve key. *)
Definition parse_key (der : bytes) : option pkix_key * option error :=
  match der with
  | [t; n; e] =>
      if Z_of_byte t =? 82 then
        (Some (RSAPublicKey (rsa.mk (Z_of_byte n) (Z_of_byte e))), None)
      else if Z_of_byte t =? 69 then (Some ECDSAPublicKey, None)
      else (None, Some "x509: unknown public key algorithm")
  | _ => (None, Some "asn1: structure error")
  end.

(** One-byte digest: the sum of the message bytes modulo 251. *)
Definition digest (m : bytes) : bytes :=
  [byte_of_Z (foldr (fun b acc => (Z_of_byte b + acc) mod 251) 0 m)].

(** Textbook RSA: [sig ^ E mod N] must be the digest modulo [N]. *)
Definition verify (pk : rsa.PublicKey) (hash : crypto_Hash)
           (hashed sig : bytes) : option error :=
  match hashed, sig with
  | [h], [s] =>
      if (Z_of_byte s ^ rsa.E pk) mod rsa.N pk =? Z_of_byte h mod rsa.N pk
      then None
      else Some "crypto/rsa: verification error"
  | _, _ => Some "crypto/rsa: verification error"
  end.

#[export] Instance crypto : Crypto :=
  {| hex_DecodeString := hex_decode;
     base64_DecodeString := base64_decode;
     x509_ParsePKIXPublicKey := parse_key;
     sha256_Sum256 := digest;
     rsa_VerifyPKCS1v15 := verify |}.

(** A stub over a store that never fails, and one whose writes fail. *)
Definition stub_of (w : gmap string bytes) : ChaincodeStub :=
  mkStub w (fun _ => None) (fun _ _ => None).

Definition read_only_stub_of (w : gmap string bytes) : ChaincodeStub :=
  mkStub w (fun _ => None) (fun _ _ => Some "ledger unavailable").

(** *** Sample data

    The signing key of alice is the RSA key (33, 3), [UiED] in base64;
    [UiMF] is the key (35, 5) of another party. *)

Definition alice : Identity.t :=
  Identity.mk "alice" "PK" "EPK" "UiED" "data" "no"
    [Key.mk "bob" "ABC"; Key.mk "carol" "XYZ"; Key.mk "bob" "DEF"].

Definition ledger : ChaincodeStub :=
  stub_of {[ "alice" := json_Marshal alice ]}.

Definition verification_error : error :=
  "Error in verifying signature crypto/rsa: verification error".

(** A request that carries the other party's key and is signed with it. *)
Definition forged : string := "alice;stolen;EPK;UiMF;d;no;.".

(** Three invocations from the empty ledger: alice registers, grants bob
    a key, and registers again. *)
Definition registration : string := "alice;PK;EPK;UiED;data;no;.".

Definition registered : ChaincodeStub :=
  (Invoke (stub_of ∅) "Register" [registration]).2.

Definition granted : ChaincodeStub :=
  (Invoke registered "AddKey" ["alice;bob;ABC;"; "17"]).2.

Definition registered_again : ChaincodeStub :=
  (Invoke granted "Register" [registration]).2.

(** An update of alice's data once bob holds a key. *)
Definition updated : ChaincodeStub :=
  (UpdateUserData granted ["alice;new data;"; "07"]).2.



(** Every string is well formed for this codec. *)
Definition any_string (s : string) : Prop := True.

End Fixture.

(** ** Properties of the chaincode, for every implementation of the
    imported packages *)

Section Properties.
Context `{!Crypto}.
Context `{!Json Identity.t}.
Context `{!Json updateUserDataRequest.t} `{!Json addKeyRequest.t}
        `{!Json getPublicKeyRequest.t} `{!Json getUserDataRequest.t}.
Context `{!Json addKeyResponse.t} `{!Json getPublicKeyResponse.t}
        `{!Json getUserDataResponse.t}.

(** *** The store *)

Lemma GetState_Some stub key iBytes :
  GetState stub key = (Some iBytes, None) →
  get_error stub key = None ∧ world stub !! key = Some iBytes.
Proof.
  unfold GetState. destruct (get_error stub key); intros E; [discriminate|].
  by inversion E.
Qed.

Lemma GetState_lookup stub key :
  get_error stub key = None → GetState stub key = (world stub !! key, None).
Proof. intros E. unfold GetState. by rewrite E. Qed.

Lemma PutState_ok stub key value :
  put_error stub key value = None →
  PutState stub key value =
    (mkStub (<[key := value]> (world stub)) (get_error stub) (put_error stub),
     None).
Proof. intros E. unfold PutState. by rewrite E. Qed.

Lemma PutState_failed stub key value stub' err :
  PutState stub key value = (stub', Some err) → stub' = stub.
Proof.
  unfold PutState. destruct (put_error stub key value); intros E; by inversion E.
Qed.

(** Case analysis on the calls a handler makes before it answers. *)
Ltac step_handler :=
  repeat match goal with
  | |- context [index ?l ?n] => destruct (index l n)
  | |- context [GetState ?s ?k] => destruct (GetState s k) as [[?|] [?|]]
  | |- context [VerifySignature ?a ?k] =>
      destruct (VerifySignature a k) as [[?|]|]
  | |- context [PutState ?s ?k ?v] =>
      let E := fresh "EPut" in
      destruct (PutState s k v) as [? [?|]] eqn:E
  end.

(** *** Read-only handlers *)

Lemma GetPublicKey_stub stub args : (GetPublicKey stub args).2 = stub.
Proof. unfold GetPublicKey. by step_handler. Qed.

Lemma GetUserData_stub stub args : (GetUserData stub args).2 = stub.
Proof. unfold GetUserData. by step_handler. Qed.

(** C10: GetPublicKey and GetUserData never write to the ledger state:
    after any invocation of either, whatever its outcome, the stub and
    with it the record of every username is what it was before. *)
Theorem C10_queries_leave_state_unchanged (stub : ChaincodeStub)
        (args : list string) :
  (GetPublicKey stub args).2 = stub ∧
  (GetUserData stub args).2 = stub ∧
  ∀ username,
    stored_identity (GetPublicKey stub args).2 username
      = stored_identity stub username ∧
    stored_identity (GetUserData stub args).2 username
      = stored_identity stub username.
Proof.
  split; [apply GetPublicKey_stub|]. split; [apply GetUserData_stub|].
  intros username. by rewrite GetPublicKey_stub, GetUserData_stub.
Qed.

(** *** Failures persist nothing *)

Lemma Register_aborts : aborts_atomically Register.
Proof.
  intros stub args resp stub'. unfold Register.
  step_handler; intros E S; inversion E; subst; try done.
  by apply PutState_failed in EPut.
Qed.

Lemma UpdateUserData_aborts : aborts_atomically UpdateUserData.
Proof.
  intros stub args resp stub'. unfold UpdateUserData.
  step_handler; intros E S; inversion E; subst; try done.
  by apply PutState_failed in EPut.
Qed.

Lemma AddKey_aborts : aborts_atomically AddKey.
Proof.
  intros stub args resp stub'. unfold AddKey.
  step_handler; intros E S; inversion E; subst; try done.
  by apply PutState_failed in EPut.
Qed.

Lemma GetPublicKey_aborts : aborts_atomically GetPublicKey.
Proof.
  intros stub args resp stub' E _.
  pose proof (GetPublicKey_stub stub args) as Hs. by rewrite E in Hs.
Qed.

Lemma GetUserData_aborts : aborts_atomically GetUserData.
Proof.
  intros stub args resp stub' E _.
  pose proof (GetUserData_stub stub args) as Hs. by rewrite E in Hs.
Qed.

(** C3: when a handler, called directly or through Invoke, returns an
    error response (the store failed on the read or on the write, the
    username was not found, the signature did not verify), the ledger
    state is the state before the invocation. *)
Theorem C3_error_responses_persist_nothing (h : handler) :
  h ∈ handlers ∨ (∃ function, h = fun stub args => Invoke stub function args) →
  aborts_atomically h.
Proof.
  assert (Hall : ∀ h', h' ∈ handlers → aborts_atomically h').
  { intros h' Hin. unfold handlers in Hin.
    repeat (apply elem_of_cons in Hin as [->|Hin]);
      [apply Register_aborts | apply UpdateUserData_aborts | apply AddKey_aborts
      | apply GetPublicKey_aborts | apply GetUserData_aborts
      | by apply elem_of_nil in Hin]. }
  intros [Hin | [function ->]]; [by apply Hall|].
  intros stub args resp stub'. unfold Invoke.
  repeat case_match;
    try (apply Hall; unfold handlers; set_solver).
  - intros E _. by inversion E.
  - intros E _. by inversion E.
Qed.

(** *** Authentication against the stored key *)

(** VerifySignature reads [args[0]] and [args[1]] only. *)
Lemma VerifySignature_args payload sig rest publicKey :
  VerifySignature (payload :: sig :: rest) publicKey
  = VerifySignature [payload; sig] publicKey.
Proof. reflexivity. Qed.

Lemma stored_identity_Some stub username i :
  stored_identity stub username = Some i →
  ∃ iBytes, world stub !! username = Some iBytes ∧ decode_Identity iBytes = i.
Proof.
  unfold stored_identity. intros E.
  apply fmap_Some in E as (iBytes & Hw & ->). by exists iBytes.
Qed.

(** C1: UpdateUserData and AddKey verify the signature args[1] over the
    payload args[0] against the sPublicKey of the identity stored under
    the requested username.  Whenever that verification fails, for
    whatever reason (a signature that is not hexadecimal, a stored key
    that does not parse, a signature made with another key), they answer
    with the authentication error and keep the state: no other key
    enters, so it does not matter under which key the signature would
    verify, one carried in the payload included. *)
Theorem C1_signature_checked_against_stored_key
        (stub : ChaincodeStub) (payload sig : string) (rest : list string)
        (i : Identity.t) (err : error) :
  let args := payload :: sig :: rest in
  let denied :=
    (Done (shim_Error ("Can't verify signature " +:+ err)), stub) in
  VerifySignature [payload; sig] (Identity.SPublicKey i) = Done (Some err) →
  (let username :=
     updateUserDataRequest.Username (decode_updateUserDataRequest payload) in
   get_error stub username = None →
   stored_identity stub username = Some i →
   UpdateUserData stub args = denied) ∧
  (let username := addKeyRequest.Username (decode_addKeyRequest payload) in
   get_error stub username = None →
   stored_identity stub username = Some i →
   AddKey stub args = denied).
Proof.
  intros args denied Hstored. split; intros username Hget Hi;
    apply stored_identity_Some in Hi as (iBytes & Hw & <-);
    subst args denied username.
  - unfold UpdateUserData, decode_updateUserDataRequest in *. simpl.
    rewrite (GetState_lookup _ _ Hget), Hw.
    rewrite VerifySignature_args. unfold decode_Identity in Hstored.
    by rewrite Hstored.
  - unfold AddKey, decode_addKeyRequest in *. simpl.
    rewrite (GetState_lookup _ _ Hget), Hw.
    rewrite VerifySignature_args. unfold decode_Identity in Hstored.
    by rewrite Hstored.
Qed.

(** *** Register *)

(** C2: for a payload that parses as an Identity [i] (and a store that
    accepts the write), Register stores under [i]'s username the
    serialization of [i] with keys replaced by the empty sequence,
    whatever was stored there before, and answers with that
    serialization; read back by a codec that returns what it wrote, the
    stored record is [i] with empty keys. *)
Theorem C2_Register_stores_identity_without_keys
        (stub : ChaincodeStub) (payload : string) (rest : list string)
        (i : Identity.t) :
  let stored := Identity.set_Keys i [] in
  json_Unmarshal (bytes_of_string payload) Identity.zero = (i, None) →
  put_error stub (Identity.Username i) (json_Marshal stored) = None →
  ∃ stub',
    Register stub (payload :: rest)
      = (Done (shim_Success (json_Marshal stored)), stub') ∧
    world stub'
      = <[Identity.Username i := json_Marshal stored]> (world stub) ∧
    world stub' !! Identity.Username i = Some (json_Marshal stored) ∧
    (decode_Identity (json_Marshal stored) = stored →
     stored_identity stub' (Identity.Username i) = Some stored) ∧
    Identity.Keys stored = [] ∧
    stored = Identity.mk (Identity.Username i) (Identity.PublicKey i)
               (Identity.EPublicKey i) (Identity.SPublicKey i)
               (Identity.Data i) (Identity.Verified i) [].
Proof.
  intros stored Hparse Hput. eexists. split.
  - unfold Register. simpl. rewrite Hparse. simpl. fold stored.
    by rewrite (PutState_ok _ _ _ Hput).
  - unfold stored_identity. simpl. rewrite lookup_insert_eq.
    repeat split. simpl. intros E. by f_equal.
Qed.

(** *** UpdateUserData *)

(** C8: a successful UpdateUserData persists, under the prior record's
    username, the stored identity with its data field replaced by the
    request's; username, publicKey, ePublicKey, sPublicKey, verified and
    keys of the persisted record are those of the prior record. *)
Theorem C8_UpdateUserData_changes_only_data
        (stub stub' : ChaincodeStub) (args : list string) (resp : pb.Response) :
  UpdateUserData stub args = (Done resp, stub') →
  pb.Status resp = shim_OK →
  ∃ payload prior persisted,
    index args 0 = Done payload ∧
    stored_identity stub
      (updateUserDataRequest.Username (decode_updateUserDataRequest payload))
      = Some prior ∧
    world stub'
      = <[Identity.Username prior := json_Marshal persisted]> (world stub) ∧
    resp = shim_Success (json_Marshal persisted) ∧
    (decode_Identity (json_Marshal persisted) = persisted →
     stored_identity stub' (Identity.Username prior) = Some persisted) ∧
    Identity.Data persisted
      = updateUserDataRequest.Data (decode_updateUserDataRequest payload) ∧
    Identity.Username persisted = Identity.Username prior ∧
    Identity.PublicKey persisted = Identity.PublicKey prior ∧
    Identity.EPublicKey persisted = Identity.EPublicKey prior ∧
    Identity.SPublicKey persisted = Identity.SPublicKey prior ∧
    Identity.Verified persisted = Identity.Verified prior ∧
    Identity.Keys persisted = Identity.Keys prior.
Proof.
  unfold UpdateUserData.
  destruct (index args 0) as [payload|] eqn:Ea; [|discriminate].
  destruct (GetState _ _) as [[iBytes|] [e|]] eqn:EGet;
    try (intros E S; inversion E; subst; discriminate S).
  apply GetState_Some in EGet as [_ Hw].
  destruct (VerifySignature _ _) as [[e|]|];
    try (intros E S; inversion E; subst; discriminate S).
  unfold PutState. simpl.
  destruct (put_error _ _ _);
    intros E S; inversion E; subst; try discriminate S.
  exists payload, (decode_Identity iBytes),
    (Identity.set_Data (decode_Identity iBytes)
       (updateUserDataRequest.Data (decode_updateUserDataRequest payload))).
  unfold stored_identity, decode_updateUserDataRequest. rewrite Hw. simpl.
  repeat split. rewrite lookup_insert_eq. simpl. intros Hrt. by f_equal.
Qed.

(** *** GetUserData *)

Lemma scan_keys_last owner keys keyResult :
  scan_keys owner keys keyResult
  = match last (filter (fun k => Key.Owner k = owner) keys) with
    | Some k => Key.Key k
    | None => keyResult
    end.
Proof.
  revert keyResult. induction keys as [|k keys IH]; intros keyResult; [done|].
  unfold scan_keys in *. simpl. rewrite IH. rewrite filter_cons.
  destruct (String.eqb_spec (Key.Owner k) owner) as [Heq|Hne].
  - rewrite decide_True by done. rewrite last_cons. by case_match.
  - by rewrite decide_False.
Qed.

Lemma filter_owner_none owner (keys : list Key.t) :
  Forall (fun k => Key.Owner k ≠ owner) keys →
  filter (fun k => Key.Owner k = owner) keys = [].
Proof.
  induction 1 as [|k keys Hk _ IH]; [done|].
  by rewrite filter_cons, decide_False.
Qed.

Lemma last_matching_key_none owner keys :
  Forall (fun k => Key.Owner k ≠ owner) keys →
  last_matching_key owner keys = "".
Proof. intros Hn. unfold last_matching_key. by rewrite filter_owner_none. Qed.

Lemma last_matching_key_split owner l1 k l2 :
  Key.Owner k = owner →
  Forall (fun k' => Key.Owner k' ≠ owner) l2 →
  last_matching_key owner (l1 ++ k :: l2) = Key.Key k.
Proof.
  intros Hk Hn. unfold last_matching_key.
  rewrite filter_app, filter_cons, decide_True by done.
  rewrite (filter_owner_none owner l2) by done. by rewrite last_snoc.
Qed.

(** C4: for a stored identity, GetUserData succeeds with a response
    whose key field is the key of the last entry of the identity's keys
    whose owner is the requested owner, and the empty string when no
    entry matches. *)
Theorem C4_GetUserData_returns_last_matching_key
        (stub : ChaincodeStub) (payload : string) (rest : list string)
        (i : Identity.t) :
  let req := decode_getUserDataRequest payload in
  let owner := getUserDataRequest.Owner req in
  get_error stub (getUserDataRequest.Username req) = None →
  stored_identity stub (getUserDataRequest.Username req) = Some i →
  ∃ key,
    GetUserData stub (payload :: rest)
      = (Done (shim_Success (json_Marshal
                 (getUserDataResponse.mk (Identity.PublicKey i)
                    (Identity.EPublicKey i) (Identity.SPublicKey i)
                    (Identity.Data i) key))), stub) ∧
    key = last_matching_key owner (Identity.Keys i) ∧
    (∀ l1 k l2,
       Identity.Keys i = l1 ++ k :: l2 →
       Key.Owner k = owner →
       Forall (fun k' => Key.Owner k' ≠ owner) l2 →
       key = Key.Key k) ∧
    (Forall (fun k => Key.Owner k ≠ owner) (Identity.Keys i) → key = "").
Proof.
  intros req owner Hget Hi.
  apply stored_identity_Some in Hi as (iBytes & Hw & <-).
  exists (last_matching_key owner (Identity.Keys (decode_Identity iBytes))).
  split; [|split; [done|split]].
  - unfold GetUserData. simpl. fold (decode_getUserDataRequest payload).
    fold req. rewrite (GetState_lookup _ _ Hget), Hw.
    by rewrite scan_keys_last.
  - intros l1 k l2 -> Hk Hn. by apply last_matching_key_split.
  - apply last_matching_key_none.
Qed.

(** *** VerifySignature *)

(** The checks VerifySignature makes, in the order it makes them: the
    hex decoding of the signature, the parsing of whatever bytes the
    base64 decoder returned for the key, the key's type, the RSA
    verification. *)
Lemma VerifySignature_checks payload sig publicKey :
  VerifySignature [payload; sig] publicKey =
  match hex_DecodeString sig with
  | (_, Some err) => Done (Some ("Error in decoding signature " +:+ err))
  | (s, None) =>
    match x509_ParsePKIXPublicKey (base64_DecodeString publicKey).1 with
    | (_, Some err) =>
        Done (Some ("Error in parsing key " +:+ publicKey +:+ " " +:+ err))
    | (Some (RSAPublicKey pk), None) =>
        match rsa_VerifyPKCS1v15 pk crypto_SHA256
                (sha256_Sum256 (bytes_of_string payload)) s with
        | Some err => Done (Some ("Error in verifying signature " +:+ err))
        | None => Done None
        end
    | (_, None) => Done (Some "Key is not RSA")
    end
  end.
Proof.
  unfold VerifySignature. simpl.
  destruct (hex_DecodeString sig) as [s [e|]]; [done|].
  by destruct (base64_DecodeString publicKey) as [pkBytes e].
Qed.

(** C6: the error of the base64 decoding of the public key is never
    read.  When the decoder reports an error and the bytes it returned
    with it parse as an RSA key under which the signature verifies,
    VerifySignature returns nil: no key-format error is raised for a
    public key string that fails base64 decoding. *)
Theorem C6_base64_error_is_not_checked
        (payload sig publicKey : string) (s pkBytes : bytes) (err : error)
        (pk : rsa.PublicKey) :
  hex_DecodeString sig = (s, None) →
  base64_DecodeString publicKey = (pkBytes, Some err) →
  x509_ParsePKIXPublicKey pkBytes = (Some (RSAPublicKey pk), None) →
  rsa_VerifyPKCS1v15 pk crypto_SHA256
    (sha256_Sum256 (bytes_of_string payload)) s = None →
  VerifySignature [payload; sig] publicKey = Done None.
Proof.
  intros Hhex Hb64 Hkey Hrsa. rewrite VerifySignature_checks.
  rewrite Hhex, Hb64. simpl. by rewrite Hkey, Hrsa.
Qed.

(** *** Invoke *)

Lemma eqb_handler_name function name :
  function ∉ handler_names → name ∈ handler_names →
  String.eqb function name = false.
Proof.
  intros Hnot Hin. destruct (String.eqb_spec function name); [by subst|done].
Qed.

Lemma Invoke_unknown stub function args :
  function ∉ handler_names →
  Invoke stub function args =
    match args with
    | [] => (Panic, stub)
    | a0 :: _ => (Done (shim_Error (unknown_action +:+ a0)), stub)
    end.
Proof.
  intros Hnot. unfold Invoke.
  rewrite !(eqb_handler_name function) by (done || unfold handler_names; set_solver).
  by destruct args.
Qed.

(** C7: Invoke dispatches on an exact match of the function name; for
    any other name it answers with the unknown-action error, whose
    message ends with args[0], the first parameter of the invocation,
    and not with the function name received; without parameters it
    panics. *)
Theorem C7_unknown_function_reports_first_parameter
        (stub : ChaincodeStub) (function : string) (args : list string) :
  (function = "Register" → Invoke stub function args = Register stub args) ∧
  (function = "UpdateUserData" →
   Invoke stub function args = UpdateUserData stub args) ∧
  (function = "AddKey" → Invoke stub function args = AddKey stub args) ∧
  (function = "GetPublicKey" →
   Invoke stub function args = GetPublicKey stub args) ∧
  (function = "GetUserData" →
   Invoke stub function args = GetUserData stub args) ∧
  (function ∉ handler_names →
   Invoke stub function args =
     match args with
     | [] => (Panic, stub)
     | a0 :: _ => (Done (shim_Error (unknown_action +:+ a0)), stub)
     end).
Proof.
  repeat split; try (by intros ->). apply Invoke_unknown.
Qed.

(** *** What each mutating handler does to the stub *)

Lemma Register_effect stub args r stub' :
  Register stub args = (r, stub') →
  (stub' = stub ∧ ∀ resp, r = Done resp → pb.Status resp = shim_ERROR) ∨
  (∃ payload,
     index args 0 = Done payload ∧
     stub' = write stub
               (Identity.set_Keys (decode_Identity (bytes_of_string payload)) [])).
Proof.
  unfold Register.
  destruct (index args 0) as [payload|]; [|intros E; inversion E; by left].
  unfold PutState. destruct (put_error _ _ _); intros E; inversion E; subst.
  - left. split; [done|]. by intros resp [= <-].
  - right. by exists payload.
Qed.

Lemma UpdateUserData_effect stub args r stub' :
  UpdateUserData stub args = (r, stub') →
  stub' = stub ∨
  (∃ payload iBytes,
     let req := decode_updateUserDataRequest payload in
     world stub !! updateUserDataRequest.Username req = Some iBytes ∧
     stub' = write stub
               (Identity.set_Data (decode_Identity iBytes)
                  (updateUserDataRequest.Data req))).
Proof.
  unfold UpdateUserData.
  destruct (index args 0) as [payload|]; [|intros E; inversion E; by left].
  destruct (GetState _ _) as [[iBytes|] [e|]] eqn:EGet;
    try (intros E; inversion E; by left).
  apply GetState_Some in EGet as [_ Hw].
  destruct (VerifySignature _ _) as [[e|]|];
    try (intros E; inversion E; by left).
  unfold PutState. destruct (put_error _ _ _); intros E; inversion E; subst;
    [by left|].
  right. by exists payload, iBytes.
Qed.

Lemma AddKey_effect stub args r stub' :
  AddKey stub args = (r, stub') →
  stub' = stub ∨
  (∃ payload iBytes,
     let req := decode_addKeyRequest payload in
     let i := decode_Identity iBytes in
     world stub !! addKeyRequest.Username req = Some iBytes ∧
     stub' = write stub
               (Identity.set_Keys i
                  (Identity.Keys i ++
                   [Key.mk (addKeyRequest.Owner req) (addKeyRequest.Key req)]))).
Proof.
  unfold AddKey.
  destruct (index args 0) as [payload|]; [|intros E; inversion E; by left].
  destruct (GetState _ _) as [[iBytes|] [e|]] eqn:EGet;
    try (intros E; inversion E; by left).
  apply GetState_Some in EGet as [_ Hw].
  destruct (VerifySignature _ _) as [[e|]|];
    try (intros E; inversion E; by left).
  unfold PutState. destruct (put_error _ _ _); intros E; inversion E; subst;
    [by left|].
  right. by exists payload, iBytes.
Qed.

Lemma Invoke_unknown_effect stub function args r stub' :
  function ∉ handler_names → Invoke stub function args = (r, stub') → stub' = stub.
Proof.
  intros Hnot. rewrite Invoke_unknown by done.
  destruct args; by intros [= _ <-].
Qed.

(** *** Successful mutations *)

Lemma VerifySignature_Done args publicKey result :
  VerifySignature args publicKey = Done result →
  ∃ payload sig rest, args = payload :: sig :: rest.
Proof.
  destruct args as [|payload [|sig rest]]; [done..|]. intros _. by eauto.
Qed.

Lemma failed_not_succeeded msg : ¬ succeeded (Done (shim_Error msg)).
Proof. by intros (resp & [= <-] & S). Qed.

Lemma panic_not_succeeded : ¬ succeeded Panic.
Proof. by intros (resp & E & _). Qed.

Lemma UpdateUserData_changed stub args r stub' :
  UpdateUserData stub args = (r, stub') →
  stub' ≠ stub ∨ succeeded r →
  ∃ payload iBytes,
    let req := decode_updateUserDataRequest payload in
    let prior := decode_Identity iBytes in
    let persisted := Identity.set_Data prior (updateUserDataRequest.Data req) in
    index args 0 = Done payload ∧
    get_error stub (updateUserDataRequest.Username req) = None ∧
    world stub !! updateUserDataRequest.Username req = Some iBytes ∧
    VerifySignature args (Identity.SPublicKey prior) = Done None ∧
    stub' = write stub persisted ∧
    r = Done (shim_Success (json_Marshal persisted)).
Proof.
  unfold UpdateUserData.
  destruct (index args 0) as [payload|] eqn:Ea.
  2: { intros [= <- <-] [?|?%panic_not_succeeded]; done. }
  destruct (GetState _ _) as [[iBytes|] [e|]] eqn:EGet;
    try (intros [= <- <-] [?|?%failed_not_succeeded]; done).
  apply GetState_Some in EGet as [Hget Hw].
  destruct (VerifySignature _ _) as [[e|]|] eqn:EV;
    [intros [= <- <-] [?|?%failed_not_succeeded]; done| |
     intros [= <- <-] [?|?%panic_not_succeeded]; done].
  unfold PutState. destruct (put_error _ _ _);
    [intros [= <- <-] [?|?%failed_not_succeeded]; done|].
  intros [= <- <-] _. by exists payload, iBytes.
Qed.

Lemma AddKey_changed stub args r stub' :
  AddKey stub args = (r, stub') →
  stub' ≠ stub ∨ succeeded r →
  ∃ payload iBytes,
    let req := decode_addKeyRequest payload in
    let prior := decode_Identity iBytes in
    let key := Key.mk (addKeyRequest.Owner req) (addKeyRequest.Key req) in
    let persisted := Identity.set_Keys prior (Identity.Keys prior ++ [key]) in
    index args 0 = Done payload ∧
    get_error stub (addKeyRequest.Username req) = None ∧
    world stub !! addKeyRequest.Username req = Some iBytes ∧
    VerifySignature args (Identity.SPublicKey prior) = Done None ∧
    stub' = write stub persisted ∧
    r = Done (shim_Success
                (json_Marshal
                   (addKeyResponse.mk (addKeyRequest.Owner req)
                                      (addKeyRequest.Key req)))).
Proof.
  unfold AddKey.
  destruct (index args 0) as [payload|] eqn:Ea.
  2: { intros [= <- <-] [?|?%panic_not_succeeded]; done. }
  destruct (GetState _ _) as [[iBytes|] [e|]] eqn:EGet;
    try (intros [= <- <-] [?|?%failed_not_succeeded]; done).
  apply GetState_Some in EGet as [Hget Hw].
  destruct (VerifySignature _ _) as [[e|]|] eqn:EV;
    [intros [= <- <-] [?|?%failed_not_succeeded]; done| |
     intros [= <- <-] [?|?%panic_not_succeeded]; done].
  unfold PutState. destruct (put_error _ _ _);
    [intros [= <- <-] [?|?%failed_not_succeeded]; done|].
  intros [= <- <-] _. by exists payload, iBytes.
Qed.

Lemma Register_changed stub args r stub' :
  Register stub args = (r, stub') →
  stub' ≠ stub ∨ succeeded r →
  ∃ payload,
    let stored :=
      Identity.set_Keys (decode_Identity (bytes_of_string payload)) [] in
    index args 0 = Done payload ∧
    stub' = write stub stored ∧
    r = Done (shim_Success (json_Marshal stored)).
Proof.
  unfold Register.
  destruct (index args 0) as [payload|] eqn:Ea.
  2: { intros [= <- <-] [?|?%panic_not_succeeded]; done. }
  unfold PutState. destruct (put_error _ _ _);
    [intros [= <- <-] [?|?%failed_not_succeeded]; done|].
  intros [= <- <-] _. by exists payload.
Qed.

(** X1: a successful AddKey persists, under the prior record's username,
    the stored identity with exactly one entry, the request's owner and
    key, appended to its keys; the other fields are those of the prior
    record, and the response echoes the owner and the key. *)
Theorem X1_AddKey_appends_one_key
        (stub stub' : ChaincodeStub) (args : list string) (resp : pb.Response) :
  AddKey stub args = (Done resp, stub') →
  pb.Status resp = shim_OK →
  ∃ payload prior persisted,
    let req := decode_addKeyRequest payload in
    index args 0 = Done payload ∧
    stored_identity stub (addKeyRequest.Username req) = Some prior ∧
    world stub'
      = <[Identity.Username prior := json_Marshal persisted]> (world stub) ∧
    resp = shim_Success
             (json_Marshal (addKeyResponse.mk (addKeyRequest.Owner req)
                                              (addKeyRequest.Key req))) ∧
    Identity.Keys persisted
      = Identity.Keys prior
          ++ [Key.mk (addKeyRequest.Owner req) (addKeyRequest.Key req)] ∧
    Identity.Username persisted = Identity.Username prior ∧
    Identity.PublicKey persisted = Identity.PublicKey prior ∧
    Identity.EPublicKey persisted = Identity.EPublicKey prior ∧
    Identity.SPublicKey persisted = Identity.SPublicKey prior ∧
    Identity.Data persisted = Identity.Data prior ∧
    Identity.Verified persisted = Identity.Verified prior.
Proof.
  intros E S.
  destruct (AddKey_changed _ _ _ _ E) as (payload & iBytes & Hc);
    [right; by exists resp|].
  simpl in Hc. destruct Hc as (Ha & _ & Hw & _ & -> & [= ->]).
  exists payload, (decode_Identity iBytes). eexists. simpl.
  unfold stored_identity. rewrite Hw. simpl. by repeat split.
Qed.

(** X2: UpdateUserData and AddKey change the ledger state, or answer
    with a success, only when the invocation has a payload and a
    signature, a record is stored under the requested username, and
    VerifySignature accepted the signature over the payload under that
    record's sPublicKey. *)
Theorem X2_mutation_requires_verified_signature
        (stub stub' : ChaincodeStub) (args : list string)
        (r : exec pb.Response) :
  stub' ≠ stub ∨ succeeded r →
  (UpdateUserData stub args = (r, stub') →
   ∃ payload sig rest prior,
     args = payload :: sig :: rest ∧
     stored_identity stub
       (updateUserDataRequest.Username (decode_updateUserDataRequest payload))
       = Some prior ∧
     VerifySignature [payload; sig] (Identity.SPublicKey prior) = Done None) ∧
  (AddKey stub args = (r, stub') →
   ∃ payload sig rest prior,
     args = payload :: sig :: rest ∧
     stored_identity stub
       (addKeyRequest.Username (decode_addKeyRequest payload)) = Some prior ∧
     VerifySignature [payload; sig] (Identity.SPublicKey prior) = Done None).
Proof.
  intros Hch. split; intros E.
  - destruct (UpdateUserData_changed _ _ _ _ E Hch) as (payload & iBytes & Hc).
    simpl in Hc. destruct Hc as (Ha & _ & Hw & HV & _).
    destruct (VerifySignature_Done _ _ _ HV) as (p & sig & rest & ->).
    injection Ha as ->. exists payload, sig, rest, (decode_Identity iBytes).
    unfold stored_identity. rewrite Hw. by repeat split.
  - destruct (AddKey_changed _ _ _ _ E Hch) as (payload & iBytes & Hc).
    simpl in Hc. destruct Hc as (Ha & _ & Hw & HV & _).
    destruct (VerifySignature_Done _ _ _ HV) as (p & sig & rest & ->).
    injection Ha as ->. exists payload, sig, rest, (decode_Identity iBytes).
    unfold stored_identity. rewrite Hw. by repeat split.
Qed.

(** *** What VerifySignature accepts and rejects *)

(** X3: VerifySignature returns nil exactly when the invocation has a
    payload and a signature, the signature is valid hexadecimal, the
    bytes the base64 decoder returned for the public key parse as an RSA
    key, and the RSA verification of the payload's digest against the
    decoded signature succeeds. *)
Theorem X3_VerifySignature_accepts_iff (args : list string) (publicKey : string) :
  VerifySignature args publicKey = Done None ↔
  ∃ payload sig rest s pk,
    args = payload :: sig :: rest ∧
    hex_DecodeString sig = (s, None) ∧
    x509_ParsePKIXPublicKey (base64_DecodeString publicKey).1
      = (Some (RSAPublicKey pk), None) ∧
    rsa_VerifyPKCS1v15 pk crypto_SHA256
      (sha256_Sum256 (bytes_of_string payload)) s = None.
Proof.
  split.
  - intros HV. destruct (VerifySignature_Done _ _ _ HV) as (payload & sig & rest & ->).
    rewrite VerifySignature_args, VerifySignature_checks in HV.
    destruct (hex_DecodeString sig) as [s [e|]] eqn:Hhex; [done|].
    destruct (x509_ParsePKIXPublicKey _) as [[[pk| | |]|] [e|]] eqn:Hkey;
      try done.
    destruct (rsa_VerifyPKCS1v15 _ _ _ _) eqn:Hrsa; [done|].
    by exists payload, sig, rest, s, pk.
  - intros (payload & sig & rest & s & pk & -> & Hhex & Hkey & Hrsa).
    rewrite VerifySignature_args, VerifySignature_checks.
    by rewrite Hhex, Hkey, Hrsa.
Qed.

(** X4: the order of the rejections.  A signature that is not valid
    hexadecimal is rejected with the decoding error whatever the public
    key; then a key whose decoded bytes do not parse is rejected with
    the parsing error, which quotes the key, whatever the signature
    bytes; then a parsed key that is not an RSA key is rejected; and
    only then is a failed RSA verification reported. *)
Theorem X4_VerifySignature_rejections
        (payload sig publicKey : string) (s : bytes) (hexError : option error)
        (key : option pkix_key) (keyError : option error) :
  hex_DecodeString sig = (s, hexError) →
  x509_ParsePKIXPublicKey (base64_DecodeString publicKey).1 = (key, keyError) →
  VerifySignature [payload; sig] publicKey =
    match hexError, keyError, key with
    | Some err, _, _ => Done (Some ("Error in decoding signature " +:+ err))
    | None, Some err, _ =>
        Done (Some ("Error in parsing key " +:+ publicKey +:+ " " +:+ err))
    | None, None, Some (RSAPublicKey pk) =>
        match rsa_VerifyPKCS1v15 pk crypto_SHA256
                (sha256_Sum256 (bytes_of_string payload)) s with
        | Some err => Done (Some ("Error in verifying signature " +:+ err))
        | None => Done None
        end
    | None, None, _ => Done (Some "Key is not RSA")
    end.
Proof.
  intros Hhex Hkey. rewrite VerifySignature_checks, Hhex.
  destruct hexError; [done|]. rewrite Hkey.
  by destruct keyError, key as [[]|].
Qed.

(** *** Lookups that find nothing *)

(** X5: UpdateUserData, AddKey, GetPublicKey and GetUserData answer
    [Failed to get state] when the store fails on the read of the
    requested username (the store's own error text is dropped), and
    [Username not found] when nothing is stored under it; both before
    the signature is looked at, so also when args[1] is missing, and
    with the state unchanged. *)
Theorem X5_lookup_failures
        (stub : ChaincodeStub) (payload : string) (rest : list string)
        (h : handler) (username : string) :
  (h, username) ∈ lookups payload →
  (∀ err, get_error stub username = Some err →
     h stub (payload :: rest)
       = (Done (shim_Error "Failed to get state"), stub)) ∧
  (get_error stub username = None →
   world stub !! username = None →
   h stub (payload :: rest) = (Done (shim_Error "Username not found"), stub)).
Proof.
  intros Hin. unfold lookups in Hin.
  repeat (apply elem_of_cons in Hin as [[= -> ->]|Hin]);
    [| | | |by apply elem_of_nil in Hin];
    (split; [intros err Hget|intros Hget Hw]);
    unfold UpdateUserData, AddKey, GetPublicKey, GetUserData, GetState,
      decode_updateUserDataRequest, decode_addKeyRequest,
      decode_getPublicKeyRequest, decode_getUserDataRequest in *;
    simpl; rewrite Hget; by rewrite ?Hw.
Qed.

(** *** What the mutating handlers do once the record is found *)

Lemma Register_outcome stub payload rest :
  let i := Identity.set_Keys (decode_Identity (bytes_of_string payload)) [] in
  Register stub (payload :: rest)
  = match put_error stub (Identity.Username i) (json_Marshal i) with
    | Some err => (Done (shim_Error err), stub)
    | None => (Done (shim_Success (json_Marshal i)), write stub i)
    end.
Proof.
  intros i. unfold Register, PutState. simpl.
  fold (decode_Identity (bytes_of_string payload)). fold i.
  by destruct (put_error _ _ _).
Qed.

Lemma UpdateUserData_found stub payload rest iBytes :
  let req := decode_updateUserDataRequest payload in
  let prior := decode_Identity iBytes in
  let i := Identity.set_Data prior (updateUserDataRequest.Data req) in
  get_error stub (updateUserDataRequest.Username req) = None →
  world stub !! updateUserDataRequest.Username req = Some iBytes →
  UpdateUserData stub (payload :: rest)
  = match VerifySignature (payload :: rest) (Identity.SPublicKey prior) with
    | Panic => (Panic, stub)
    | Done (Some err) =>
        (Done (shim_Error ("Can't verify signature " +:+ err)), stub)
    | Done None =>
        match put_error stub (Identity.Username i) (json_Marshal i) with
        | Some err => (Done (shim_Error err), stub)
        | None => (Done (shim_Success (json_Marshal i)), write stub i)
        end
    end.
Proof.
  intros req prior i Hget Hw. unfold UpdateUserData, PutState. simpl.
  fold (decode_updateUserDataRequest payload). fold req.
  rewrite (GetState_lookup _ _ Hget), Hw. fold (decode_Identity iBytes).
  fold prior. destruct (VerifySignature _ _) as [[e|]|]; try done.
  fold i. by destruct (put_error _ _ _).
Qed.

Lemma AddKey_found stub payload rest iBytes :
  let req := decode_addKeyRequest payload in
  let prior := decode_Identity iBytes in
  let key := Key.mk (addKeyRequest.Owner req) (addKeyRequest.Key req) in
  let i := Identity.set_Keys prior (Identity.Keys prior ++ [key]) in
  get_error stub (addKeyRequest.Username req) = None →
  world stub !! addKeyRequest.Username req = Some iBytes →
  AddKey stub (payload :: rest)
  = match VerifySignature (payload :: rest) (Identity.SPublicKey prior) with
    | Panic => (Panic, stub)
    | Done (Some err) =>
        (Done (shim_Error ("Can't verify signature " +:+ err)), stub)
    | Done None =>
        match put_error stub (Identity.Username i) (json_Marshal i) with
        | Some err => (Done (shim_Error err), stub)
        | None =>
            (Done (shim_Success
                     (json_Marshal
                        (addKeyResponse.mk (addKeyRequest.Owner req)
                                           (addKeyRequest.Key req)))),
             write stub i)
        end
    end.
Proof.
  intros req prior key i Hget Hw. unfold AddKey, PutState. simpl.
  fold (decode_addKeyRequest payload). fold req.
  rewrite (GetState_lookup _ _ Hget), Hw. fold (decode_Identity iBytes).
  fold prior. destruct (VerifySignature _ _) as [[e|]|]; try done.
  fold key. fold i. by destruct (put_error _ _ _).
Qed.

(** *** Writes the store refuses *)

(** X14: over a store that refuses the write, Register answers with the
    store's own error text.  UpdateUserData and AddKey, for a stored
    record, answer with the store's error text exactly when the
    signature verified under the record's sPublicKey: a signature that
    does not verify is still answered with the authentication error, and
    a missing one still panics.  The state is unchanged in every case. *)
Theorem X14_write_failures
        (stub : ChaincodeStub) (payload : string) (rest : list string)
        (err : error) :
  (let i := Identity.set_Keys (decode_Identity (bytes_of_string payload)) [] in
   put_error stub (Identity.Username i) (json_Marshal i) = Some err →
   Register stub (payload :: rest) = (Done (shim_Error err), stub)) ∧
  (∀ prior,
     let req := decode_updateUserDataRequest payload in
     let i := Identity.set_Data prior (updateUserDataRequest.Data req) in
     get_error stub (updateUserDataRequest.Username req) = None →
     stored_identity stub (updateUserDataRequest.Username req) = Some prior →
     put_error stub (Identity.Username i) (json_Marshal i) = Some err →
     UpdateUserData stub (payload :: rest)
     = match VerifySignature (payload :: rest) (Identity.SPublicKey prior) with
       | Done None => (Done (shim_Error err), stub)
       | Done (Some e) =>
           (Done (shim_Error ("Can't verify signature " +:+ e)), stub)
       | Panic => (Panic, stub)
       end) ∧
  (∀ prior,
     let req := decode_addKeyRequest payload in
     let i := Identity.set_Keys prior
                (Identity.Keys prior
                 ++ [Key.mk (addKeyRequest.Owner req) (addKeyRequest.Key req)]) in
     get_error stub (addKeyRequest.Username req) = None →
     stored_identity stub (addKeyRequest.Username req) = Some prior →
     put_error stub (Identity.Username i) (json_Marshal i) = Some err →
     AddKey stub (payload :: rest)
     = match VerifySignature (payload :: rest) (Identity.SPublicKey prior) with
       | Done None => (Done (shim_Error err), stub)
       | Done (Some e) =>
           (Done (shim_Error ("Can't verify signature " +:+ e)), stub)
       | Panic => (Panic, stub)
       end).
Proof.
  split; [|split].
  - intros i Hput. rewrite Register_outcome. fold i. by rewrite Hput.
  - intros prior req i Hget Hi Hput.
    apply stored_identity_Some in Hi as (iBytes & Hw & <-).
    rewrite (UpdateUserData_found _ _ _ _ Hget Hw). fold req. fold i.
    rewrite Hput. by destruct (VerifySignature _ _) as [[e|]|].
  - intros prior req i Hget Hi Hput.
    apply stored_identity_Some in Hi as (iBytes & Hw & <-).
    rewrite (AddKey_found _ _ _ _ Hget Hw). fold req. fold i.
    rewrite Hput. by destruct (VerifySignature _ _) as [[e|]|].
Qed.

(** *** Malformed payloads *)


(** *** Panics *)

Lemma Register_panic stub args stub' :
  Register stub args = (Panic, stub') → args = [] ∧ stub' = stub.
Proof.
  unfold Register. destruct args as [|payload rest]; simpl; [by intros [= <-]|].
  by destruct (PutState _ _ _) as [? [?|]].
Qed.

Lemma GetPublicKey_panic stub args stub' :
  GetPublicKey stub args = (Panic, stub') → args = [] ∧ stub' = stub.
Proof.
  unfold GetPublicKey. destruct args as [|payload rest]; simpl;
    [by intros [= <-]|].
  by destruct (GetState _ _) as [[?|] [?|]].
Qed.

Lemma GetUserData_panic stub args stub' :
  GetUserData stub args = (Panic, stub') → args = [] ∧ stub' = stub.
Proof.
  unfold GetUserData. destruct args as [|payload rest]; simpl;
    [by intros [= <-]|].
  by destruct (GetState _ _) as [[?|] [?|]].
Qed.

Lemma UpdateUserData_panic stub args stub' :
  UpdateUserData stub args = (Panic, stub') →
  stub' = stub ∧ (length args ≤ 1)%nat.
Proof.
  unfold UpdateUserData.
  destruct args as [|payload [|sig rest]]; simpl;
    [intros [= <-]; split; [done|lia]| |].
  - destruct (GetState _ _) as [[?|] [?|]]; try done.
    intros [= <-]. split; [done|lia].
  - destruct (GetState _ _) as [[?|] [?|]]; try done.
    rewrite VerifySignature_args, VerifySignature_checks.
    repeat case_match; try done; by destruct (PutState _ _ _) as [? [?|]].
Qed.

Lemma AddKey_panic stub args stub' :
  AddKey stub args = (Panic, stub') →
  stub' = stub ∧ (length args ≤ 1)%nat.
Proof.
  unfold AddKey.
  destruct args as [|payload [|sig rest]]; simpl;
    [intros [= <-]; split; [done|lia]| |].
  - destruct (GetState _ _) as [[?|] [?|]]; try done.
    intros [= <-]. split; [done|lia].
  - destruct (GetState _ _) as [[?|] [?|]]; try done.
    rewrite VerifySignature_args, VerifySignature_checks.
    repeat case_match; try done; by destruct (PutState _ _ _) as [? [?|]].
Qed.

(** X6: an invocation without parameters panics, whatever the function
    name.  A panic leaves the ledger state as it was; it needs fewer
    than two parameters, and with exactly one parameter only
    UpdateUserData and AddKey can panic (on the missing signature). *)
Theorem X6_panics_on_missing_parameters
        (stub : ChaincodeStub) (function : string) (args : list string) :
  (args = [] → Invoke stub function args = (Panic, stub)) ∧
  (∀ stub',
     Invoke stub function args = (Panic, stub') →
     stub' = stub ∧ (length args ≤ 1)%nat ∧
     (args ≠ [] → function = "UpdateUserData" ∨ function = "AddKey")).
Proof.
  split.
  - intros ->. unfold Invoke. by repeat case_match.
  - intros stub'. unfold Invoke.
    destruct (String.eqb_spec function "Register");
      [intros [-> ->]%Register_panic; repeat split; first [done | simpl; lia]|].
    destruct (String.eqb_spec function "UpdateUserData");
      [intros [-> ?]%UpdateUserData_panic; repeat split; auto|].
    destruct (String.eqb_spec function "AddKey");
      [intros [-> ?]%AddKey_panic; repeat split; auto|].
    destruct (String.eqb_spec function "GetPublicKey");
      [intros [-> ->]%GetPublicKey_panic; repeat split; first [done | simpl; lia]|].
    destruct (String.eqb_spec function "GetUserData");
      [intros [-> ->]%GetUserData_panic; repeat split; first [done | simpl; lia]|].
    destruct args; [|done]. intros [= <-]. repeat split; first [done | simpl; lia].
Qed.

(** *** Nothing is deleted *)

Lemma Invoke_effect stub function args r stub' :
  Invoke stub function args = (r, stub') →
  stub' = stub ∨ ∃ i, stub' = write stub i.
Proof.
  unfold Invoke. repeat case_match; intros E.
  - apply Register_effect in E as [[-> _]|(payload & _ & ->)]; eauto.
  - apply UpdateUserData_effect in E as [->|(payload & iBytes & _ & ->)]; eauto.
  - apply AddKey_effect in E as [->|(payload & iBytes & _ & ->)]; eauto.
  - pose proof (GetPublicKey_stub stub args) as Hs. rewrite E in Hs. by left.
  - pose proof (GetUserData_stub stub args) as Hs. rewrite E in Hs. by left.
  - inversion E. by left.
  - inversion E. by left.
Qed.

(** X7: no invocation deletes a record: every username that holds a
    record before an invocation, of any function and whatever its
    outcome, holds one after it.  This needs no assumption on the
    state. *)
Theorem X7_records_are_never_deleted
        (stub stub' : ChaincodeStub) (function : string) (args : list string)
        (r : exec pb.Response) (username : string) :
  Invoke stub function args = (r, stub') →
  is_Some (world stub !! username) →
  is_Some (world stub' !! username).
Proof.
  intros E Hs. apply Invoke_effect in E as [->|[i ->]]; [done|].
  unfold write. simpl. rewrite lookup_insert. by case_decide.
Qed.

(** *** Register, then the queries *)

Lemma GetPublicKey_found stub payload rest iBytes :
  let username :=
    getPublicKeyRequest.Username (decode_getPublicKeyRequest payload) in
  let i := decode_Identity iBytes in
  get_error stub username = None →
  world stub !! username = Some iBytes →
  GetPublicKey stub (payload :: rest)
  = (Done (shim_Success
             (json_Marshal
                (getPublicKeyResponse.mk (Identity.PublicKey i)
                                         (Identity.EPublicKey i)))), stub).
Proof.
  intros username i Hget Hw. unfold GetPublicKey. simpl.
  fold (decode_getPublicKeyRequest payload). fold username.
  by rewrite (GetState_lookup _ _ Hget), Hw.
Qed.

Lemma GetUserData_found stub payload rest iBytes :
  let req := decode_getUserDataRequest payload in
  let i := decode_Identity iBytes in
  get_error stub (getUserDataRequest.Username req) = None →
  world stub !! getUserDataRequest.Username req = Some iBytes →
  GetUserData stub (payload :: rest)
  = (Done (shim_Success
             (json_Marshal
                (getUserDataResponse.mk (Identity.PublicKey i)
                   (Identity.EPublicKey i) (Identity.SPublicKey i)
                   (Identity.Data i)
                   (last_matching_key (getUserDataRequest.Owner req)
                      (Identity.Keys i))))), stub).
Proof.
  intros req i Hget Hw. unfold GetUserData. simpl.
  fold (decode_getUserDataRequest payload). fold req.
  rewrite (GetState_lookup _ _ Hget), Hw. by rewrite scan_keys_last.
Qed.

(** X8: after a successful Register of a payload decoded as [i], read
    back by a codec that returns the record it wrote, GetPublicKey for
    that username answers with the publicKey and ePublicKey submitted,
    and GetUserData answers with the submitted keys and data and an
    empty key, whoever the requested owner is. *)
Theorem X8_Register_then_queries
        (stub stub' : ChaincodeStub) (payload : string) (rest : list string)
        (resp : pb.Response) (q : string) (rest' : list string) :
  let i := decode_Identity (bytes_of_string payload) in
  let stored := Identity.set_Keys i [] in
  Register stub (payload :: rest) = (Done resp, stub') →
  pb.Status resp = shim_OK →
  decode_Identity (json_Marshal stored) = stored →
  get_error stub (Identity.Username i) = None →
  (getPublicKeyRequest.Username (decode_getPublicKeyRequest q)
     = Identity.Username i →
   GetPublicKey stub' (q :: rest')
     = (Done (shim_Success
                (json_Marshal
                   (getPublicKeyResponse.mk (Identity.PublicKey i)
                                            (Identity.EPublicKey i)))),
        stub')) ∧
  (getUserDataRequest.Username (decode_getUserDataRequest q)
     = Identity.Username i →
   GetUserData stub' (q :: rest')
     = (Done (shim_Success
                (json_Marshal
                   (getUserDataResponse.mk (Identity.PublicKey i)
                      (Identity.EPublicKey i) (Identity.SPublicKey i)
                      (Identity.Data i) ""))),
        stub')).
Proof.
  intros i stored E S Hrt Hget.
  destruct (Register_changed _ _ _ _ E) as (p & Hc); [right; by exists resp|].
  simpl in Hc. destruct Hc as ([= <-] & -> & _).
  assert (Hw : world (write stub stored) !! Identity.Username i
               = Some (json_Marshal stored))
    by (unfold write; simpl; apply lookup_insert_eq).
  split; intros Hu; rewrite <- Hu in Hw, Hget.
  - rewrite (GetPublicKey_found (write stub stored) _ _ _ Hget Hw).
    by rewrite Hrt.
  - rewrite (GetUserData_found (write stub stored) _ _ _ Hget Hw).
    by rewrite Hrt.
Qed.

(** *** Reachable states *)

Section Reachable.

(** What the proofs about reachable states need of encoding/json. *)
Variable utf8 : string → Prop.

Hypothesis Unmarshal_Identity_utf8 :
  ∀ data, wf_Identity utf8 (decode_Identity data).

Hypothesis Unmarshal_updateUserDataRequest_utf8 :
  ∀ payload,
    utf8 (updateUserDataRequest.Data (decode_updateUserDataRequest payload)).

Hypothesis Unmarshal_addKeyRequest_utf8 :
  ∀ payload,
    utf8 (addKeyRequest.Owner (decode_addKeyRequest payload)) ∧
    utf8 (addKeyRequest.Key (decode_addKeyRequest payload)).

Hypothesis Unmarshal_Marshal_Identity :
  ∀ i, wf_Identity utf8 i → decode_Identity (json_Marshal i) = i.

Lemma consistent_lookup stub username iBytes :
  consistent utf8 stub →
  world stub !! username = Some iBytes →
  Identity.Username (decode_Identity iBytes) = username.
Proof.
  intros Hc Hw. destruct (Hc _ _ Hw) as (i & Hwf & -> & <-).
  by rewrite Unmarshal_Marshal_Identity.
Qed.

Lemma consistent_write stub i :
  consistent utf8 stub → wf_Identity utf8 i → consistent utf8 (write stub i).
Proof.
  intros Hc Hwf username iBytes. unfold write. simpl.
  rewrite lookup_insert. case_decide as Hu.
  - intros [= <-]. by exists i.
  - apply Hc.
Qed.

Lemma stored_keys_write stub i username :
  wf_Identity utf8 i →
  stored_keys (write stub i) username
  = if decide (Identity.Username i = username) then Identity.Keys i
    else stored_keys stub username.
Proof.
  intros Hwf. unfold stored_keys, stored_identity, write. simpl.
  rewrite lookup_insert. case_decide; [|done].
  simpl. by rewrite Unmarshal_Marshal_Identity.
Qed.

Lemma stored_keys_lookup stub username iBytes :
  world stub !! username = Some iBytes →
  stored_keys stub username = Identity.Keys (decode_Identity iBytes).
Proof. intros Hw. unfold stored_keys, stored_identity. by rewrite Hw. Qed.

Lemma wf_set_Keys_nil i :
  wf_Identity utf8 i → wf_Identity utf8 (Identity.set_Keys i []).
Proof.
  unfold wf_Identity. simpl. intros (?&?&?&?&?&?&?). by repeat split.
Qed.

Lemma wf_set_Data i d :
  wf_Identity utf8 i → utf8 d → wf_Identity utf8 (Identity.set_Data i d).
Proof.
  unfold wf_Identity. simpl. intros (?&?&?&?&?&?&?) ?. by repeat split.
Qed.

Lemma wf_append_key i owner key :
  wf_Identity utf8 i → utf8 owner → utf8 key →
  wf_Identity utf8
    (Identity.set_Keys i (Identity.Keys i ++ [Key.mk owner key])).
Proof.
  unfold wf_Identity. simpl. intros (?&?&?&?&?&?&Hks) ? ?.
  repeat split; try done. apply Forall_app. split; [done|].
  by apply Forall_singleton.
Qed.

Lemma Invoke_consistent stub function args r stub' :
  consistent utf8 stub → Invoke stub function args = (r, stub') → consistent utf8 stub'.
Proof.
  intros Hc. unfold Invoke. repeat case_match; intros E.
  - apply Register_effect in E as [[-> _]|(payload & _ & ->)]; [done|].
    by apply consistent_write, wf_set_Keys_nil.
  - apply UpdateUserData_effect in E as [->|(payload & iBytes & _ & ->)];
      [done|].
    by apply consistent_write, wf_set_Data.
  - apply AddKey_effect in E as [->|(payload & iBytes & _ & ->)]; [done|].
    apply consistent_write, wf_append_key; try done;
      apply Unmarshal_addKeyRequest_utf8.
  - pose proof (GetPublicKey_stub stub args) as Hs. rewrite E in Hs.
    simpl in Hs. by subst.
  - pose proof (GetUserData_stub stub args) as Hs. rewrite E in Hs.
    simpl in Hs. by subst.
  - by inversion E; subst.
  - by inversion E; subst.
Qed.

Lemma reachable_consistent stub : reachable stub → consistent utf8 stub.
Proof.
  induction 1 as [stub Hempty|stub function args r stub' _ IH E
                 |stub stub' _ IH Hw].
  - intros username iBytes. by rewrite Hempty, lookup_empty.
  - by eapply Invoke_consistent.
  - intros username iBytes. rewrite Hw. apply IH.
Qed.

Lemma UpdateUserData_keys stub args r stub' username :
  consistent utf8 stub →
  UpdateUserData stub args = (r, stub') →
  stored_keys stub' username = stored_keys stub username.
Proof.
  intros Hc E.
  apply UpdateUserData_effect in E as [->|(payload & iBytes & Hw & ->)]; [done|].
  rewrite stored_keys_write by by apply wf_set_Data.
  simpl. case_decide as Hu; [|done].
  rewrite (consistent_lookup _ _ _ Hc Hw) in Hu. subst username.
  by rewrite (stored_keys_lookup _ _ _ Hw).
Qed.

Lemma AddKey_keys stub args r stub' username :
  consistent utf8 stub →
  AddKey stub args = (r, stub') →
  stored_keys stub username `prefix_of` stored_keys stub' username.
Proof.
  intros Hc E.
  apply AddKey_effect in E as [->|(payload & iBytes & Hw & ->)]; [done|].
  rewrite stored_keys_write
    by (apply wf_append_key; try done; apply Unmarshal_addKeyRequest_utf8).
  simpl. case_decide as Hu; [|done].
  rewrite (consistent_lookup _ _ _ Hc Hw) in Hu. subst username.
  rewrite (stored_keys_lookup _ _ _ Hw). by apply prefix_app_r.
Qed.

(** C5, as the code has it: in every reachable state, UpdateUserData,
    AddKey, GetPublicKey, GetUserData and the rejection of an unknown
    function leave under every username a keys sequence that has the
    prior one as a prefix; a successful Register leaves the registered
    username with the empty keys sequence and every other username with
    the keys it had. *)
Theorem C5_keys_grow_except_on_Register
        (stub stub' : ChaincodeStub) (function : string) (args : list string)
        (r : exec pb.Response) :
  reachable stub →
  Invoke stub function args = (r, stub') →
  (function ≠ "Register" →
   ∀ username,
     stored_keys stub username `prefix_of` stored_keys stub' username) ∧
  (function = "Register" →
   ∀ resp, r = Done resp → pb.Status resp = shim_OK →
   ∃ payload,
     let registered :=
       Identity.Username (decode_Identity (bytes_of_string payload)) in
     index args 0 = Done payload ∧
     stored_keys stub' registered = [] ∧
     ∀ username, username ≠ registered →
       stored_keys stub' username = stored_keys stub username).
Proof.
  intros Hr E. apply reachable_consistent in Hr. split.
  - intros Hf username. revert E. unfold Invoke.
    destruct (String.eqb_spec function "Register"); [done|].
    repeat case_match; intros E.
    + by rewrite (UpdateUserData_keys _ _ _ _ username Hr E).
    + by eapply AddKey_keys.
    + pose proof (GetPublicKey_stub stub args) as Hs. rewrite E in Hs.
      simpl in Hs. by subst.
    + pose proof (GetUserData_stub stub args) as Hs. rewrite E in Hs.
      simpl in Hs. by subst.
    + by inversion E; subst.
    + by inversion E; subst.
  - intros -> resp -> S. unfold Invoke in E. simpl in E.
    apply Register_effect in E as [[_ Herr]|(payload & Ha & ->)].
    { rewrite (Herr resp eq_refl) in S. discriminate S. }
    exists payload. simpl. split; [done|].
    split.
    + rewrite stored_keys_write by by apply wf_set_Keys_nil.
      simpl. by rewrite decide_True.
    + intros username Hne.
      rewrite stored_keys_write by by apply wf_set_Keys_nil.
      simpl. by rewrite decide_False.
Qed.

(** *** More on reachable states *)

Lemma stored_identity_write stub i username :
  wf_Identity utf8 i →
  stored_identity (write stub i) username
  = if decide (Identity.Username i = username) then Some i
    else stored_identity stub username.
Proof.
  intros Hwf. unfold stored_identity, write. simpl.
  rewrite lookup_insert. case_decide; [|done].
  simpl. by rewrite Unmarshal_Marshal_Identity.
Qed.

(** X9: in every reachable state a record is stored under its own
    username, and the stored bytes are the serialization of the identity
    they decode to. *)
Theorem X9_record_stored_under_its_username
        (stub : ChaincodeStub) (username : string) (i : Identity.t) :
  reachable stub →
  stored_identity stub username = Some i →
  Identity.Username i = username ∧
  world stub !! username = Some (json_Marshal i).
Proof.
  intros Hr Hi. apply reachable_consistent in Hr.
  apply stored_identity_Some in Hi as (iBytes & Hw & <-).
  destruct (Hr _ _ Hw) as (i & Hwf & -> & <-).
  by rewrite Unmarshal_Marshal_Identity.
Qed.

(** X10: in a reachable state, an invocation of anything but Register
    keeps every stored record, with its username, publicKey, ePublicKey,
    sPublicKey and verified unchanged; its data changes at most through
    UpdateUserData and its keys at most through AddKey. *)
Theorem X10_identity_fields_change_only_through_Register
        (stub stub' : ChaincodeStub) (function : string) (args : list string)
        (r : exec pb.Response) (username : string) (i : Identity.t) :
  reachable stub →
  function ≠ "Register" →
  Invoke stub function args = (r, stub') →
  stored_identity stub username = Some i →
  ∃ i',
    stored_identity stub' username = Some i' ∧
    Identity.Username i' = Identity.Username i ∧
    Identity.PublicKey i' = Identity.PublicKey i ∧
    Identity.EPublicKey i' = Identity.EPublicKey i ∧
    Identity.SPublicKey i' = Identity.SPublicKey i ∧
    Identity.Verified i' = Identity.Verified i ∧
    (function ≠ "UpdateUserData" → Identity.Data i' = Identity.Data i) ∧
    (function ≠ "AddKey" → Identity.Keys i' = Identity.Keys i).
Proof.
  intros Hr Hf E Hi. apply reachable_consistent in Hr.
  assert (Hsame : stub' = stub → ∃ i',
    stored_identity stub' username = Some i' ∧
    Identity.Username i' = Identity.Username i ∧
    Identity.PublicKey i' = Identity.PublicKey i ∧
    Identity.EPublicKey i' = Identity.EPublicKey i ∧
    Identity.SPublicKey i' = Identity.SPublicKey i ∧
    Identity.Verified i' = Identity.Verified i ∧
    (function ≠ "UpdateUserData" → Identity.Data i' = Identity.Data i) ∧
    (function ≠ "AddKey" → Identity.Keys i' = Identity.Keys i))
    by (intros ->; by exists i).
  revert E. unfold Invoke.
  destruct (String.eqb_spec function "Register"); [done|].
  destruct (String.eqb_spec function "UpdateUserData") as [->|_].
  { intros E.
    apply UpdateUserData_effect in E as [->|(payload & iBytes & Hw & ->)];
      [by apply Hsame|].
    rewrite stored_identity_write by by apply wf_set_Data.
    simpl. case_decide as Hu; [|by exists i].
    rewrite (consistent_lookup _ _ _ Hr Hw) in Hu. subst username.
    unfold stored_identity in Hi. rewrite Hw in Hi. injection Hi as <-.
    eexists. split; [done|]. by repeat split. }
  destruct (String.eqb_spec function "AddKey") as [->|_].
  { intros E.
    apply AddKey_effect in E as [->|(payload & iBytes & Hw & ->)];
      [by apply Hsame|].
    rewrite stored_identity_write
      by (apply wf_append_key; try done; apply Unmarshal_addKeyRequest_utf8).
    simpl. case_decide as Hu; [|by exists i].
    rewrite (consistent_lookup _ _ _ Hr Hw) in Hu. subst username.
    unfold stored_identity in Hi. rewrite Hw in Hi. injection Hi as <-.
    eexists. split; [done|]. by repeat split. }
  repeat case_match; intros E; apply Hsame.
  - pose proof (GetPublicKey_stub stub args) as Hs. by rewrite E in Hs.
  - pose proof (GetUserData_stub stub args) as Hs. by rewrite E in Hs.
  - by inversion E.
  - by inversion E.
Qed.

(** X11: in a reachable state, the only record an invocation can change
    is the one stored under the username its payload names: the
    registered username for Register, the requested username for
    UpdateUserData and AddKey; no other function changes any. *)
Theorem X11_only_the_named_record_changes
        (stub stub' : ChaincodeStub) (function payload : string)
        (rest : list string) (r : exec pb.Response) (username : string) :
  reachable stub →
  Invoke stub function (payload :: rest) = (r, stub') →
  world stub' !! username ≠ world stub !! username →
  (function = "Register" ∧
   username = Identity.Username (decode_Identity (bytes_of_string payload))) ∨
  (function = "UpdateUserData" ∧
   username
   = updateUserDataRequest.Username (decode_updateUserDataRequest payload)) ∨
  (function = "AddKey" ∧
   username = addKeyRequest.Username (decode_addKeyRequest payload)).
Proof.
  intros Hr E Hne. apply reachable_consistent in Hr.
  assert (Hw : ∀ i, stub' = write stub i → username = Identity.Username i).
  { intros i ->. unfold write in Hne. simpl in Hne.
    rewrite lookup_insert in Hne. by case_decide. }
  revert E. unfold Invoke.
  destruct (String.eqb_spec function "Register") as [->|_].
  { intros E. left. split; [done|].
    apply Register_effect in E as [[-> _]|(p & [= <-] & ->)]; [done|].
    by rewrite (Hw _ eq_refl). }
  destruct (String.eqb_spec function "UpdateUserData") as [->|_].
  { intros E. right. left. split; [done|].
    unfold UpdateUserData in E. simpl in E.
    fold (decode_updateUserDataRequest payload) in E.
    destruct (GetState _ _) as [[iBytes|] [e|]] eqn:EGet;
      try (injection E as _ <-; done).
    apply GetState_Some in EGet as [_ Hl].
    destruct (VerifySignature _ _) as [[e|]|];
      try (injection E as _ <-; done).
    unfold PutState in E. destruct (put_error _ _ _);
      injection E as _ <-; [done|].
    rewrite (Hw (Identity.set_Data (decode_Identity iBytes)
                   (updateUserDataRequest.Data
                      (decode_updateUserDataRequest payload)))) by done.
    simpl. by rewrite (consistent_lookup _ _ _ Hr Hl). }
  destruct (String.eqb_spec function "AddKey") as [->|_].
  { intros E. right. right. split; [done|].
    unfold AddKey in E. simpl in E.
    fold (decode_addKeyRequest payload) in E.
    destruct (GetState _ _) as [[iBytes|] [e|]] eqn:EGet;
      try (injection E as _ <-; done).
    apply GetState_Some in EGet as [_ Hl].
    destruct (VerifySignature _ _) as [[e|]|];
      try (injection E as _ <-; done).
    unfold PutState in E. destruct (put_error _ _ _);
      injection E as _ <-; [done|].
    rewrite (Hw (Identity.set_Keys (decode_Identity iBytes)
                   (Identity.Keys (decode_Identity iBytes) ++
                    [Key.mk
                       (addKeyRequest.Owner (decode_addKeyRequest payload))
                       (addKeyRequest.Key (decode_addKeyRequest payload))])))
      by done.
    simpl. by rewrite (consistent_lookup _ _ _ Hr Hl). }
  repeat case_match; intros E; exfalso; apply Hne.
  - pose proof (GetPublicKey_stub stub (payload :: rest)) as Hs.
    rewrite E in Hs. simpl in Hs. by subst.
  - pose proof (GetUserData_stub stub (payload :: rest)) as Hs.
    rewrite E in Hs. simpl in Hs. by subst.
  - simpl in *. by simplify_eq.
  - simpl in *. by simplify_eq.
Qed.

(** X12: in a reachable state, after a successful AddKey that granted
    [owner] a key under a username, GetUserData for that username and
    owner answers with that key (the latest grant wins) and with the
    record's publicKey, ePublicKey, sPublicKey and data as they were
    before the grant. *)
Theorem X12_AddKey_then_GetUserData
        (stub stub' : ChaincodeStub) (payload sig : string) (rest : list string)
        (resp : pb.Response) (prior : Identity.t) (q : string)
        (rest' : list string) :
  let req := decode_addKeyRequest payload in
  let query := decode_getUserDataRequest q in
  reachable stub →
  AddKey stub (payload :: sig :: rest) = (Done resp, stub') →
  pb.Status resp = shim_OK →
  stored_identity stub (addKeyRequest.Username req) = Some prior →
  getUserDataRequest.Username query = addKeyRequest.Username req →
  getUserDataRequest.Owner query = addKeyRequest.Owner req →
  GetUserData stub' (q :: rest')
  = (Done (shim_Success
             (json_Marshal
                (getUserDataResponse.mk (Identity.PublicKey prior)
                   (Identity.EPublicKey prior) (Identity.SPublicKey prior)
                   (Identity.Data prior) (addKeyRequest.Key req)))), stub').
Proof.
  intros req query Hr E S Hprior Hu Ho. apply reachable_consistent in Hr.
  destruct (AddKey_changed _ _ _ _ E) as (p & iBytes & Hc);
    [right; by exists resp|].
  simpl in Hc. destruct Hc as ([= <-] & Hget & Hw & _ & -> & _).
  fold req in Hget, Hw.
  unfold stored_identity in Hprior. rewrite Hw in Hprior.
  injection Hprior as <-.
  pose proof (consistent_lookup _ _ _ Hr Hw) as Hname.
  set (persisted := Identity.set_Keys _ _).
  assert (Hwf : wf_Identity utf8 persisted)
    by (apply wf_append_key; try done; apply Unmarshal_addKeyRequest_utf8).
  assert (Hw' : world (write stub persisted)
                !! getUserDataRequest.Username query
                = Some (json_Marshal persisted)).
  { unfold write. simpl. fold query. rewrite Hu, <- Hname.
    apply lookup_insert_eq. }
  assert (Hget' : get_error (write stub persisted)
                    (getUserDataRequest.Username query) = None)
    by (simpl; fold query; by rewrite Hu).
  rewrite (GetUserData_found (write stub persisted) _ _ _ Hget' Hw').
  rewrite (Unmarshal_Marshal_Identity _ Hwf). fold query. rewrite Ho.
  unfold persisted. simpl. fold req.
  by rewrite (last_matching_key_split _ _ (Key.mk _ _) []).
Qed.

(** X13: in a reachable state, after a successful UpdateUserData for a
    username, GetUserData for that username answers with the new data,
    with the publicKey, ePublicKey and sPublicKey of the record before
    the update, and with the key its keys held for the requested owner
    before the update. *)
Theorem X13_UpdateUserData_then_GetUserData
        (stub stub' : ChaincodeStub) (payload sig : string) (rest : list string)
        (resp : pb.Response) (prior : Identity.t) (q : string)
        (rest' : list string) :
  let req := decode_updateUserDataRequest payload in
  let query := decode_getUserDataRequest q in
  reachable stub →
  UpdateUserData stub (payload :: sig :: rest) = (Done resp, stub') →
  pb.Status resp = shim_OK →
  stored_identity stub (updateUserDataRequest.Username req) = Some prior →
  getUserDataRequest.Username query = updateUserDataRequest.Username req →
  GetUserData stub' (q :: rest')
  = (Done (shim_Success
             (json_Marshal
                (getUserDataResponse.mk (Identity.PublicKey prior)
                   (Identity.EPublicKey prior) (Identity.SPublicKey prior)
                   (updateUserDataRequest.Data req)
                   (last_matching_key (getUserDataRequest.Owner query)
                      (Identity.Keys prior))))), stub').
Proof.
  intros req query Hr E S Hprior Hu. apply reachable_consistent in Hr.
  destruct (UpdateUserData_changed _ _ _ _ E) as (p & iBytes & Hc);
    [right; by exists resp|].
  simpl in Hc. destruct Hc as ([= <-] & Hget & Hw & _ & -> & _).
  fold req in Hget, Hw.
  unfold stored_identity in Hprior. rewrite Hw in Hprior.
  injection Hprior as <-.
  pose proof (consistent_lookup _ _ _ Hr Hw) as Hname.
  set (persisted := Identity.set_Data _ _).
  assert (Hwf : wf_Identity utf8 persisted) by by apply wf_set_Data.
  assert (Hw' : world (write stub persisted)
                !! getUserDataRequest.Username query
                = Some (json_Marshal persisted)).
  { unfold write. simpl. fold query. rewrite Hu, <- Hname.
    apply lookup_insert_eq. }
  assert (Hget' : get_error (write stub persisted)
                    (getUserDataRequest.Username query) = None)
    by (simpl; fold query; by rewrite Hu).
  rewrite (GetUserData_found (write stub persisted) _ _ _ Hget' Hw').
  by rewrite (Unmarshal_Marshal_Identity _ Hwf).
Qed.

End Reachable.

End Properties.

(** ** The executable implementation: assumptions met, handlers run *)

Section Runs.
Import Fixture.

Lemma append_cons c (a b : string) : String c a +:+ b = String c (a +:+ b).
Proof. reflexivity. Qed.

Lemma append_assoc (a b c : string) : (a +:+ b) +:+ c = a +:+ (b +:+ c).
Proof.
  induction a as [|x a IH]; [done|]. by rewrite !append_cons, IH.
Qed.

Lemma append_empty_r (a : string) : a +:+ "" = a.
Proof. induction a as [|x a IH]; [done|]. by rewrite append_cons, IH. Qed.

Lemma get_put_string s rest :
  get_string (put_string s +:+ rest) = Some (s, rest).
Proof.
  induction s as [|c s IH]; [done|]. simpl. unfold special.
  destruct (Ascii.eqb c ";") eqn:E1; simpl.
  - rewrite ?append_cons. simpl. by rewrite IH.
  - destruct (Ascii.eqb c "\") eqn:E2; rewrite ?append_cons; simpl.
    + by rewrite IH.
    + by rewrite E1, E2, IH.
Qed.

Lemma get_put_marks n rest : get_marks (put_marks n +:+ rest) = Some (n, rest).
Proof.
  induction n as [|n IH]; [done|]. simpl. rewrite ?append_cons. simpl.
  by rewrite IH.
Qed.

Lemma get_put_key k rest : get_key (put_key k +:+ rest) = Some (k, rest).
Proof.
  unfold get_key, put_key. rewrite append_assoc, get_put_string. simpl.
  rewrite get_put_string. simpl. by destruct k.
Qed.

Lemma get_put_keys ks rest :
  get_keys (length ks) (put_keys ks +:+ rest) = Some (ks, rest).
Proof.
  induction ks as [|k ks IH]; [done|]. simpl.
  rewrite append_assoc, get_put_key. simpl. by rewrite IH.
Qed.

Lemma get_put_Identity i : get_Identity (put_Identity i) = Some (i, "").
Proof.
  unfold get_Identity, put_Identity.
  rewrite <- (append_empty_r (put_keys (Identity.Keys i))).
  rewrite <- !append_assoc. rewrite !append_assoc.
  repeat (rewrite get_put_string; simpl).
  rewrite get_put_marks. simpl. rewrite get_put_keys. simpl. by destruct i.
Qed.

(** The codec returns every identity it wrote. *)
Lemma codec_returns_Identity i : decode_Identity (json_Marshal i) = i.
Proof.
  unfold decode_Identity. simpl. unfold bytes_of_string.
  by rewrite String.string_of_list_byte_of_string, get_put_Identity.
Qed.

Lemma wf_any i : wf_Identity any_string i.
Proof.
  unfold wf_Identity, any_string. repeat split.
  apply Forall_forall. by intros k _.
Qed.

(** A request for alice signed with the other party's key, which the
    request itself carries, and a request whose signature is not
    hexadecimal: both are refused. *)
Lemma C1_witness :
  VerifySignature [forged; "18"]
    (Identity.SPublicKey (decode_Identity (bytes_of_string forged)))
    = Done None ∧
  UpdateUserData ledger [forged; "18"]
    = (Done (shim_Error ("Can't verify signature " +:+ verification_error)),
       ledger) ∧
  AddKey ledger [forged; "18"]
    = (Done (shim_Error ("Can't verify signature " +:+ verification_error)),
       ledger) ∧
  AddKey ledger ["alice;bob;ABC;"; "zz"]
    = (Done (shim_Error
               ("Can't verify signature "
                +:+ "Error in decoding signature encoding/hex: invalid byte")),
       ledger).
Proof.
  split; [vm_compute; reflexivity|].
  assert (Hstored : VerifySignature [forged; "18"] (Identity.SPublicKey alice)
                    = Done (Some verification_error)) by (vm_compute; reflexivity).
  destruct (C1_signature_checked_against_stored_key
              ledger forged "18" [] alice verification_error Hstored)
    as [HU HA].
  split; [apply HU; vm_compute; reflexivity|].
  split; [apply HA; vm_compute; reflexivity|].
  apply (C1_signature_checked_against_stored_key
           ledger "alice;bob;ABC;" "zz" [] alice
           "Error in decoding signature encoding/hex: invalid byte");
    vm_compute; reflexivity.
Defined.

(** Register of a payload that supplies a key for eve, over a record of
    alice that holds three keys. *)
Lemma C2_witness :
  ∃ stub',
    Register ledger ["alice;PK2;EPK2;UiMF;;yes;+.eve;K;"]
      = (Done (shim_Success
                 (bytes_of_string "alice;PK2;EPK2;UiMF;;yes;.")), stub') ∧
    stored_identity stub' "alice"
      = Some (Identity.mk "alice" "PK2" "EPK2" "UiMF" "" "yes" []).
Proof.
  destruct (C2_Register_stores_identity_without_keys
              ledger "alice;PK2;EPK2;UiMF;;yes;+.eve;K;" []
              (Identity.mk "alice" "PK2" "EPK2" "UiMF" "" "yes"
                 [Key.mk "eve" "K"]))
    as (stub' & HR & _ & _ & Hs & _); [vm_compute; reflexivity ..|].
  exists stub'. split; [exact HR|].
  apply Hs, codec_returns_Identity.
Defined.

(** AddKey with a signature made for another payload, and Register over
    a store that refuses writes: the ledger stays as it was. *)
Lemma C3_witness :
  (AddKey ledger ["alice;dave;KEY;"; "17"]).1
    = Done (shim_Error ("Can't verify signature " +:+ verification_error)) ∧
  (AddKey ledger ["alice;dave;KEY;"; "17"]).2 = ledger ∧
  (Register (read_only_stub_of (world ledger)) [registration]).1
    = Done (shim_Error "ledger unavailable") ∧
  (Register (read_only_stub_of (world ledger)) [registration]).2
    = read_only_stub_of (world ledger).
Proof.
  split; [vm_compute; reflexivity|]. split.
  - refine (C3_error_responses_persist_nothing AddKey _ ledger
              ["alice;dave;KEY;"; "17"]
              (shim_Error ("Can't verify signature " +:+ verification_error))
              _ _ eq_refl).
    + left. unfold handlers. do 2 (apply elem_of_cons; right).
      apply elem_of_cons. by left.
    + apply injective_projections; [vm_compute|]; reflexivity.
  - split; [vm_compute; reflexivity|].
    refine (C3_error_responses_persist_nothing Register _
              (read_only_stub_of (world ledger)) [registration]
              (shim_Error "ledger unavailable") _ _ eq_refl).
    + left. apply elem_of_cons. by left.
    + apply injective_projections; [vm_compute|]; reflexivity.
Defined.

(** bob was granted two keys; the later one is returned. *)
Lemma C4_witness :
  ∃ key,
    GetUserData ledger ["alice;bob;"]
      = (Done (shim_Success
                 (json_Marshal
                    (getUserDataResponse.mk "PK" "EPK" "UiED" "data" key))),
         ledger) ∧
    key = "DEF".
Proof.
  destruct (C4_GetUserData_returns_last_matching_key ledger "alice;bob;" [] alice)
    as (key & HG & Hkey & _); [vm_compute; reflexivity ..|].
  exists key. split; [exact HG|]. rewrite Hkey. vm_compute. reflexivity.
Defined.

Lemma reachable_registered : reachable registered.
Proof.
  eapply reachable_Invoke;
    [by apply (reachable_init (stub_of ∅)) | apply surjective_pairing].
Qed.

Lemma reachable_granted : reachable granted.
Proof.
  eapply reachable_Invoke; [apply reachable_registered | apply surjective_pairing].
Qed.

(** The grant to bob extends the keys alice had after registration. *)
Lemma C5_witness :
  stored_keys registered "alice" `prefix_of` stored_keys granted "alice".
Proof.
  refine (proj1 (C5_keys_grow_except_on_Register any_string
                   (fun _ => wf_any _) (fun _ => I) (fun _ => conj I I)
                   (fun i _ => codec_returns_Identity i)
                   registered granted "AddKey" ["alice;bob;ABC;"; "17"] _
                   reachable_registered (surjective_pairing _)) _ "alice").
  discriminate.
Defined.

(** Registering alice again, in a reachable state where she holds a
    key for bob, leaves her without keys. *)
Lemma C5_counterexample :
  reachable granted ∧
  Invoke granted "Register" [registration]
    = (Done (shim_Success (bytes_of_string registration)), registered_again) ∧
  stored_keys granted "alice" = [Key.mk "bob" "ABC"] ∧
  stored_keys registered_again "alice" = [] ∧
  ¬ stored_keys granted "alice" `prefix_of` stored_keys registered_again "alice".
Proof.
  split; [apply reachable_granted|].
  assert (Hg : stored_keys granted "alice" = [Key.mk "bob" "ABC"])
    by (vm_compute; reflexivity).
  assert (Hr : stored_keys registered_again "alice" = [])
    by (vm_compute; reflexivity).
  split; [vm_compute; reflexivity|].
  split; [exact Hg|]. split; [exact Hr|].
  rewrite Hg, Hr. intros [l Hl]. discriminate Hl.
Qed.

(** The key of alice followed by [!]: the decoder reports an error, and
    the signature is accepted all the same. *)
Lemma C6_witness :
  (base64_DecodeString "UiED!").2 = Some corrupt ∧
  VerifySignature ["alice;bob;ABC;"; "17"] "UiED!" = Done None.
Proof.
  split; [vm_compute; reflexivity|].
  apply (C6_base64_error_is_not_checked "alice;bob;ABC;" "17" "UiED!"
           (hex_decode "17").1 (base64_decode "UiED").1 corrupt (rsa.mk 33 3));
    vm_compute; reflexivity.
Defined.

(** An unknown function: the message ends with the payload; without a
    payload the dispatcher panics. *)
Lemma C7_witness :
  Invoke ledger "Transfer" ["alice;"]
    = (Done (shim_Error (unknown_action +:+ "alice;")), ledger) ∧
  Invoke ledger "Transfer" [] = (Panic, ledger).
Proof.
  assert (Hnot : "Transfer" ∉ handler_names).
  { intros Hin. unfold handler_names in Hin.
    repeat (apply elem_of_cons in Hin as [Hin|Hin]; [discriminate Hin|]).
    by apply elem_of_nil in Hin. }
  split.
  - exact (proj2 (proj2 (proj2 (proj2 (proj2
             (C7_unknown_function_reports_first_parameter
                ledger "Transfer" ["alice;"]))))) Hnot).
  - exact (proj2 (proj2 (proj2 (proj2 (proj2
             (C7_unknown_function_reports_first_parameter
                ledger "Transfer" []))))) Hnot).
Defined.

(** An update signed by alice: the data changes, her keys stay. *)
Lemma C8_witness :
  ∃ stub' persisted,
    UpdateUserData ledger ["alice;new data;"; "07"]
      = (Done (shim_Success (json_Marshal persisted)), stub') ∧
    world stub' = <["alice" := json_Marshal persisted]> (world ledger) ∧
    Identity.Data persisted = "new data" ∧
    Identity.SPublicKey persisted = "UiED" ∧
    Identity.Keys persisted = Identity.Keys alice.
Proof.
  destruct (UpdateUserData ledger ["alice;new data;"; "07"])
    as [r stub'] eqn:E.
  assert (Hr : r = Done (shim_Success
                 (bytes_of_string
                    "alice;PK;EPK;UiED;new data;no;+++.bob;ABC;carol;XYZ;bob;DEF;")))
    by (apply (f_equal fst) in E; vm_compute in E; by subst r).
  subst r.
  destruct (C8_UpdateUserData_changes_only_data _ _ _ _ E eq_refl)
    as (payload & prior & persisted & Ha & Hprior & Hw & Hresp & _ & Hd & Hu
        & _ & _ & Hs & _ & Hk).
  injection Ha as <-. vm_compute in Hprior. injection Hprior as <-.
  exists stub', persisted. rewrite Hresp. by repeat split.
Defined.


End Runs.

(** ** More runs of the executable implementation *)

Section MoreRuns.
Import Fixture.

(** The grant of a key to bob after registration. *)
Lemma X1_witness :
  ∃ payload prior persisted,
    index ["alice;bob;ABC;"; "17"] 0 = Done payload ∧
    stored_identity registered
      (addKeyRequest.Username (decode_addKeyRequest payload)) = Some prior ∧
    world granted
      = <[Identity.Username prior := json_Marshal persisted]> (world registered) ∧
    Identity.Keys persisted = Identity.Keys prior ++ [Key.mk "bob" "ABC"].
Proof.
  destruct (X1_AddKey_appends_one_key registered granted
              ["alice;bob;ABC;"; "17"]
              (shim_Success (json_Marshal (addKeyResponse.mk "bob" "ABC"))))
    as (payload & prior & persisted & Ha & Hp & Hw & _ & Hk & _);
    [vm_compute; reflexivity ..|].
  exists payload, prior, persisted. injection Ha as <-.
  by repeat split.
Defined.

(** The grant changed the state: alice's record was there and her key
    verified the signature. *)
Lemma X2_witness :
  ∃ payload sig rest prior,
    ["alice;bob;ABC;"; "17"] = payload :: sig :: rest ∧
    stored_identity registered
      (addKeyRequest.Username (decode_addKeyRequest payload)) = Some prior ∧
    VerifySignature [payload; sig] (Identity.SPublicKey prior) = Done None.
Proof.
  refine (proj2 (X2_mutation_requires_verified_signature registered granted
                   ["alice;bob;ABC;"; "17"]
                   (Done (shim_Success
                            (json_Marshal (addKeyResponse.mk "bob" "ABC"))))
                   _) _).
  - right. eexists. split; reflexivity.
  - vm_compute. reflexivity.
Defined.

Lemma X3_witness :
  VerifySignature ["alice;bob;ABC;"; "17"] "UiED" = Done None.
Proof.
  apply (proj2 (X3_VerifySignature_accepts_iff _ _)).
  exists "alice;bob;ABC;", "17", [], (hex_decode "17").1, (rsa.mk 33 3).
  repeat split; vm_compute; reflexivity.
Defined.

(** A signature that is not hexadecimal, under a key that does not
    parse: the decoding error is the one reported. *)
Lemma X4_witness :
  VerifySignature ["alice;bob;ABC;"; "zz"] "not a key"
  = Done (Some "Error in decoding signature encoding/hex: invalid byte").
Proof.
  exact (X4_VerifySignature_rejections "alice;bob;ABC;" "zz" "not a key"
           [] (Some "encoding/hex: invalid byte")
           None (Some "asn1: structure error") eq_refl eq_refl).
Defined.

(** A grant for an unknown username, sent without a signature. *)
Lemma X5_witness :
  AddKey ledger ["carol;bob;KEY;"]
  = (Done (shim_Error "Username not found"), ledger).
Proof.
  refine (proj2 (X5_lookup_failures ledger "carol;bob;KEY;" [] AddKey "carol" _)
            eq_refl _).
  - unfold lookups. apply elem_of_cons. right. apply elem_of_cons. by left.
  - vm_compute. reflexivity.
Defined.

(** No parameters at all; and an update without its signature. *)
Lemma X6_witness :
  Invoke ledger "GetUserData" [] = (Panic, ledger) ∧
  Invoke ledger "UpdateUserData" ["alice;new data;"] = (Panic, ledger) ∧
  (length ["alice;new data;"] ≤ 1)%nat.
Proof.
  split; [|split].
  - exact (proj1 (X6_panics_on_missing_parameters ledger "GetUserData" [])
             eq_refl).
  - vm_compute. reflexivity.
  - refine (proj1 (proj2 (proj2 (X6_panics_on_missing_parameters
                                   ledger "UpdateUserData" ["alice;new data;"])
                            ledger _))).
    vm_compute. reflexivity.
Defined.

(** Registering alice again keeps a record under her username. *)
Lemma X7_witness : is_Some (world registered_again !! "alice").
Proof.
  refine (X7_records_are_never_deleted granted registered_again "Register"
            [registration] _ "alice" (surjective_pairing _) _).
  vm_compute. by eexists.
Defined.

Lemma X8_witness :
  GetPublicKey registered ["alice;"]
  = (Done (shim_Success
             (json_Marshal (getPublicKeyResponse.mk "PK" "EPK"))), registered).
Proof.
  refine (proj1 (X8_Register_then_queries (stub_of ∅) registered registration []
                   (shim_Success (bytes_of_string registration)) "alice;" []
                   _ eq_refl (codec_returns_Identity _) eq_refl) _);
    vm_compute; reflexivity.
Defined.

Lemma X9_witness :
  Identity.Username
    (Identity.mk "alice" "PK" "EPK" "UiED" "data" "no" [Key.mk "bob" "ABC"])
  = "alice" ∧
  world granted !! "alice"
  = Some (bytes_of_string "alice;PK;EPK;UiED;data;no;+.bob;ABC;").
Proof.
  refine (X9_record_stored_under_its_username any_string
            (fun _ => wf_any _) (fun _ => I) (fun _ => conj I I)
            (fun i _ => codec_returns_Identity i)
            granted "alice" _ reachable_granted _).
  vm_compute. reflexivity.
Defined.

(** The grant to bob leaves the rest of alice's record as it was. *)
Lemma X10_witness :
  ∃ i',
    stored_identity granted "alice" = Some i' ∧
    Identity.SPublicKey i' = "UiED" ∧
    Identity.Data i' = "data".
Proof.
  destruct (X10_identity_fields_change_only_through_Register any_string
              (fun _ => wf_any _) (fun _ => I) (fun _ => conj I I)
              (fun i _ => codec_returns_Identity i)
              registered granted "AddKey" ["alice;bob;ABC;"; "17"] _ "alice"
              (Identity.mk "alice" "PK" "EPK" "UiED" "data" "no" [])
              reachable_registered ltac:(discriminate) (surjective_pairing _)
              ltac:(vm_compute; reflexivity))
    as (i' & Hi & _ & _ & _ & Hs & _ & Hd & _).
  exists i'. split; [exact Hi|]. split; [exact Hs|].
  apply Hd. discriminate.
Defined.

(** The record the grant changed is alice's. *)
Lemma X11_witness :
  "AddKey" = "Register" ∧
  "alice" = Identity.Username
              (decode_Identity (bytes_of_string "alice;bob;ABC;")) ∨
  "AddKey" = "UpdateUserData" ∧
  "alice" = updateUserDataRequest.Username
              (decode_updateUserDataRequest "alice;bob;ABC;") ∨
  "AddKey" = "AddKey" ∧
  "alice" = addKeyRequest.Username (decode_addKeyRequest "alice;bob;ABC;").
Proof.
  refine (X11_only_the_named_record_changes any_string
            (fun _ => wf_any _) (fun _ => I) (fun _ => conj I I)
            (fun i _ => codec_returns_Identity i)
            registered granted "AddKey" "alice;bob;ABC;" ["17"] _ "alice"
            reachable_registered (surjective_pairing _) _).
  vm_compute. discriminate.
Defined.

Lemma X12_witness :
  GetUserData granted ["alice;bob;"]
  = (Done (shim_Success
             (json_Marshal
                (getUserDataResponse.mk "PK" "EPK" "UiED" "data" "ABC"))),
     granted).
Proof.
  refine (X12_AddKey_then_GetUserData any_string
            (fun _ => wf_any _) (fun _ => I) (fun _ => conj I I)
            (fun i _ => codec_returns_Identity i)
            registered granted "alice;bob;ABC;" "17" []
            (shim_Success (json_Marshal (addKeyResponse.mk "bob" "ABC")))
            (Identity.mk "alice" "PK" "EPK" "UiED" "data" "no" [])
            "alice;bob;" [] reachable_registered _ eq_refl _ eq_refl eq_refl);
    vm_compute; reflexivity.
Defined.

Lemma X13_witness :
  GetUserData updated ["alice;bob;"]
  = (Done (shim_Success
             (json_Marshal
                (getUserDataResponse.mk "PK" "EPK" "UiED" "new data" "ABC"))),
     updated).
Proof.
  refine (X13_UpdateUserData_then_GetUserData any_string
            (fun _ => wf_any _) (fun _ => I) (fun _ => conj I I)
            (fun i _ => codec_returns_Identity i)
            granted updated "alice;new data;" "07" []
            (shim_Success
               (bytes_of_string "alice;PK;EPK;UiED;new data;no;+.bob;ABC;"))
            (Identity.mk "alice" "PK" "EPK" "UiED" "data" "no"
               [Key.mk "bob" "ABC"])
            "alice;bob;" [] reachable_granted _ eq_refl _ eq_refl);
    vm_compute; reflexivity.
Defined.

(** Over a store that refuses writes: a registration and a grant with
    a good signature get the store's error; a grant with a bad signature
    gets the authentication error. *)
Lemma X14_witness :
  Register (read_only_stub_of ∅) [registration]
    = (Done (shim_Error "ledger unavailable"), read_only_stub_of ∅) ∧
  AddKey (read_only_stub_of (world registered)) ["alice;bob;ABC;"; "17"]
    = (Done (shim_Error "ledger unavailable"),
       read_only_stub_of (world registered)) ∧
  AddKey (read_only_stub_of (world registered)) ["alice;bob;ABC;"; "18"]
    = (Done (shim_Error ("Can't verify signature " +:+ verification_error)),
       read_only_stub_of (world registered)).
Proof.
  split; [|split].
  - exact (proj1 (X14_write_failures (read_only_stub_of ∅) registration []
                    "ledger unavailable") eq_refl).
  - rewrite (proj2 (proj2 (X14_write_failures
                             (read_only_stub_of (world registered))
                             "alice;bob;ABC;" ["17"] "ledger unavailable"))
               (Identity.mk "alice" "PK" "EPK" "UiED" "data" "no" []))
      by (vm_compute; reflexivity).
    vm_compute. reflexivity.
  - rewrite (proj2 (proj2 (X14_write_failures
                             (read_only_stub_of (world registered))
                             "alice;bob;ABC;" ["18"] "ledger unavailable"))
               (Identity.mk "alice" "PK" "EPK" "UiED" "data" "no" []))
      by (vm_compute; reflexivity).
    vm_compute. reflexivity.
Defined.

End MoreRuns.
